(** * The detection engine of csrc/engine.cpp

    A shallow embedding of [odtk::Engine]: the constructor that turns a
    parsed detection network into a serialized TensorRT plan (profile
    set-up, precision flags, INT8 calibration, decode and NMS plugin
    insertion, output re-marking), and the runtime side of a loaded engine
    ([_prepare], [infer], [getInputSize], [getMaxDetections]), with the
    destructor and [save].

    The C++ code drives objects of the TensorRT and CUDA libraries through
    pointers.  Here every such object is a value in an explicit state, a
    pointer is an index into the table that owns the object, and a null
    pointer is [None].  Calls whose result the libraries compute on their
    own (the ONNX parser, profile validation, the plan compiler, plugin
    output shapes) are fields of the class [Collaborators]. *)

From Stdlib Require Import ZArith String List.
From Stdlib Require Import Floats.SpecFloat.
From stdpp Require Import base list strings.

Open Scope string_scope.
Open Scope list_scope.
Open Scope Z_scope.

(** ** Outcomes of running C++ code *)

(** What stops a run.  The first three are undefined behaviour in C++: the
    model stops there and promises nothing about what follows.  The last is
    the exception [std::out_of_range] thrown by [vector::at]. *)
Inductive Fault : Type :=
| NullDereference
| VectorIndexOutOfBounds
| DivideByZero
| out_of_range.

Inductive Outcome (A : Type) : Type :=
| Normal (a : A)
| Abort (f : Fault).
Arguments Normal {A} a.
Arguments Abort {A} f.

(** A computation over a state [St]; the state reached is kept also when
    the run stops early, so that one can ask what had happened by then. *)
Definition M (St A : Type) : Type := St -> Outcome A * St.

Definition run {St A : Type} (m : M St A) (s : St) : Outcome A * St := m s.

#[global] Instance M_ret {St : Type} : MRet (M St) :=
  fun A (a : A) (s : St) => (Normal a, s).

#[global] Instance M_bind {St : Type} : MBind (M St) :=
  fun A B (k : A -> M St B) (m : M St A) (s : St) =>
    match m s with
    | (Normal a, s') => k a s'
    | (Abort f, s') => (Abort f, s')
    end.

Definition raise {St A : Type} (f : Fault) : M St A :=
  fun s => (Abort f, s).

Definition gets {St A : Type} (f : St -> A) : M St A :=
  fun s => (Normal (f s), s).

Definition modify {St : Type} (f : St -> St) : M St unit :=
  fun s => (Normal tt, f s).

(** [p->...] on a pointer that may be null. *)
Definition deref {St A : Type} (p : option A) : M St A :=
  match p with
  | Some a => mret a
  | None => raise NullDereference
  end.

(** [v[i]] on a [std::vector]: no bounds check. *)
Definition index {St A : Type} (v : list A) (i : nat) : M St A :=
  match v !! i with
  | Some a => mret a
  | None => raise VectorIndexOutOfBounds
  end.

(** [v.at(i)] on a [std::vector]: throws when [i] is not below the size. *)
Definition vector_at {St A : Type} (v : list A) (i : nat) : M St A :=
  match v !! i with
  | Some a => mret a
  | None => raise out_of_range
  end.

(** [if (b) m;] *)
Definition when {St : Type} (b : bool) (m : M St unit) : M St unit :=
  if b then m else mret tt.

(** [a / b] on C++ integers: truncation towards zero, undefined for a zero
    divisor. *)
Definition int_div {St : Type} (a b : Z) : M St Z :=
  if b =? 0 then raise DivideByZero else mret (Z.quot a b).

(** [for (int i = first; i < first + count; i++) acc = body(i, acc)]: the
    locals that the body updates are threaded through as [acc]. *)
Fixpoint for_range {St A : Type} (first count : nat)
    (body : nat -> A -> M St A) (acc : A) : M St A :=
  match count with
  | O => mret acc
  | S count' => acc' ← body first acc; for_range (S first) count' body acc'
  end.

(** ** Data of the TensorRT object model *)

(** A [float] argument.  The constructor only copies such values into the
    plugins, so its IEEE value is all that is kept. *)
Definition float : Type := spec_float.

(** [nvinfer1::Dims]: the first [nbDims] entries of the array [d].  Reading
    [d[k]] past them yields the zero padding. *)
Definition Dims : Type := list Z.

Definition d (dims : Dims) (k : nat) : Z := nth k dims 0.

Definition Dims4 (n c h w : Z) : Dims := [n; c; h; w].

(** [ITensor *]: the position of the tensor in its network's table. *)
Abbreviation ITensor_ptr := nat (only parsing).

Record ITensor : Type := {
  getName : string;
  getDimensions : Dims
}.

(** The four plugin classes of plugins/*.h with the arguments of their
    constructors. *)
Inductive IPluginV2 : Type :=
| DecodePlugin (score_thresh : float) (top_n : Z)
    (anchors : list float) (scale : Z)
| DecodeRotatePlugin (score_thresh : float) (top_n : Z)
    (anchors : list float) (scale : Z)
| NMSPlugin (nms_thresh : float) (detections_per_im : Z)
| NMSRotatePlugin (nms_thresh : float) (detections_per_im : Z).

(** Modelled from the spec: the plugin headers are not part of the sources
    at hand.  The decode operator yields "its three outputs (scores, boxes,
    classes)" and the NMS operator yields "exactly three named tensors". *)
Definition plugin_getNbOutputs (p : IPluginV2) : nat := 3.

Inductive ILayer : Type :=
| PluginV2Layer (inputs : list ITensor_ptr) (plugin : IPluginV2)
    (outputs : list ITensor_ptr)
| ConcatenationLayer (inputs : list ITensor_ptr) (output : ITensor_ptr).

Definition layer_outputs (l : ILayer) : list ITensor_ptr :=
  match l with
  | PluginV2Layer _ _ outs => outs
  | ConcatenationLayer _ out => [out]
  end.

(** [layer->getNbOutputs()] and [layer->getOutput(k)]. *)
Definition layer_getNbOutputs (l : ILayer) : nat := length (layer_outputs l).

Definition layer_getOutput (l : ILayer) (k : nat) : option ITensor_ptr :=
  layer_outputs l !! k.

(** [INetworkDefinition]: the tensors it owns, its inputs and its marked
    outputs in marking order, and its layers in creation order. *)
Record INetworkDefinition : Type := {
  net_tensors : list ITensor;
  net_inputs : list ITensor_ptr;
  net_outputs : list ITensor_ptr;
  net_layers : list ILayer
}.

Inductive OptProfileSelector : Type := kMIN | kOPT | kMAX.

#[global] Instance OptProfileSelector_eq_dec : EqDecision OptProfileSelector.
Proof. solve_decision. Defined.

(** [IOptimizationProfile]: the shapes recorded by [setDimensions], latest
    first. *)
Definition IOptimizationProfile : Type :=
  list (string * OptProfileSelector * Dims).

(** [IOptimizationProfile *]: the position among the profiles the builder
    has created. *)
Abbreviation IOptimizationProfile_ptr := nat (only parsing).

Definition profile_setDimensions (inputName : string)
    (select : OptProfileSelector) (dims : Dims)
    (p : IOptimizationProfile) : IOptimizationProfile :=
  (inputName, select, dims) :: p.

Fixpoint profile_getDimensions (inputName : string)
    (select : OptProfileSelector) (p : IOptimizationProfile) : option Dims :=
  match p with
  | [] => None
  | (name, sel, dims) :: p' =>
      if bool_decide (name = inputName /\ sel = select) then Some dims
      else profile_getDimensions inputName select p'
  end.

Inductive BuilderFlag : Type := kFP16 | kINT8.

#[global] Instance BuilderFlag_eq_dec : EqDecision BuilderFlag.
Proof. solve_decision. Defined.

(** Modelled from the spec: calibrator.h is not part of the sources at hand.
    The calibration stream is built from a batch size, the input shape and
    the image paths; the calibrator "owns a reference to the Calibration
    Stream, a cache-table identity (model name + table path)". *)
Record ImageStream : Type := {
  stream_batch : Z;
  stream_inputDims : Dims;
  stream_calibration_images : list string
}.

Record Int8EntropyCalibrator : Type := {
  calib_stream : ImageStream;
  calib_model_name : string;
  calib_calibration_table : string
}.

(** [IBuilderConfig]. *)
Record IBuilderConfig : Type := {
  cfg_flags : list BuilderFlag;
  cfg_workspace : option Z;
  cfg_profiles : list IOptimizationProfile_ptr;
  cfg_calibration_profile : option IOptimizationProfile_ptr;
  cfg_int8_calibrator : option Int8EntropyCalibrator
}.

Definition getFlag (f : BuilderFlag) (c : IBuilderConfig) : bool :=
  bool_decide (f ∈ cfg_flags c).

(** [IHostMemory]: the bytes of a serialized plan. *)
Definition IHostMemory : Type := list Byte.byte.

(** What the libraries decide on their own. *)
Class Collaborators : Type := {
  (** [parser->parse(onnx_model, onnx_size)] on a fresh network; the code
      ignores whether parsing succeeded and goes on with what is there. *)
  parser_parse : list Byte.byte -> nat -> INetworkDefinition;
  (** [profile->isValid()]. *)
  profile_isValid : IOptimizationProfile -> bool;
  (** [plugin.getOutputDimensions(index, inputs, nbInputDims)]. *)
  plugin_getOutputDimensions : IPluginV2 -> nat -> list Dims -> Dims;
  (** The shape TensorRT gives the result of a concatenation. *)
  concatenation_dims : list Dims -> Dims;
  (** [builder->buildSerializedNetwork(network, config)]; null on failure. *)
  builder_buildSerializedNetwork :
    INetworkDefinition -> IBuilderConfig -> list IOptimizationProfile ->
    option IHostMemory
}.

(** ** Operations on a network *)

(** Every pointer is non-null and the tensor it points to exists: the shapes
    of the pointed tensors, or [None]. *)
Definition tensor_dims (n : INetworkDefinition)
    (inputs : list (option ITensor_ptr)) : option (list Dims) :=
  mapM (fun p : option ITensor_ptr =>
          t ← p; ten ← net_tensors n !! t; Some (getDimensions ten)) inputs.

Definition unnamed (dims : Dims) : ITensor :=
  {| getName := EmptyString; getDimensions := dims |}.

(** [network->addPluginV2(inputs, nbInputs, plugin)]: a new layer with fresh
    output tensors; null when an input is null. *)
Definition net_addPluginV2 `{Collaborators}
    (inputs : list (option ITensor_ptr)) (plugin : IPluginV2)
    (n : INetworkDefinition) : option ILayer * INetworkDefinition :=
  match tensor_dims n inputs with
  | None => (None, n)
  | Some in_dims =>
      let nb := plugin_getNbOutputs plugin in
      let layer :=
        PluginV2Layer (omap id inputs) plugin
          (seq (length (net_tensors n)) nb) in
      (Some layer,
       {| net_tensors :=
            net_tensors n ++
            map (fun k => unnamed (plugin_getOutputDimensions plugin k in_dims))
                (seq 0 nb);
          net_inputs := net_inputs n;
          net_outputs := net_outputs n;
          net_layers := net_layers n ++ [layer] |})
  end.

(** [network->addConcatenation(inputs, nbInputs)]: a new layer with one
    fresh output tensor; null when there is nothing to concatenate or an
    input is null. *)
Definition net_addConcatenation `{Collaborators}
    (inputs : list (option ITensor_ptr))
    (n : INetworkDefinition) : option ILayer * INetworkDefinition :=
  match inputs, tensor_dims n inputs with
  | _ :: _, Some in_dims =>
      let layer :=
        ConcatenationLayer (omap id inputs) (length (net_tensors n)) in
      (Some layer,
       {| net_tensors := net_tensors n ++ [unnamed (concatenation_dims in_dims)];
          net_inputs := net_inputs n;
          net_outputs := net_outputs n;
          net_layers := net_layers n ++ [layer] |})
  | _, _ => (None, n)
  end.

(** [network->unmarkOutput(t)]: [t] is no longer an output. *)
Definition net_unmarkOutput (t : ITensor_ptr)
    (n : INetworkDefinition) : INetworkDefinition :=
  {| net_tensors := net_tensors n;
     net_inputs := net_inputs n;
     net_outputs := filter (fun o => o <> t) (net_outputs n);
     net_layers := net_layers n |}.

(** [network->markOutput(t)]: [t] becomes the last output, unless it is one
    already. *)
Definition net_markOutput (t : ITensor_ptr)
    (n : INetworkDefinition) : INetworkDefinition :=
  {| net_tensors := net_tensors n;
     net_inputs := net_inputs n;
     net_outputs :=
       if bool_decide (t ∈ net_outputs n) then net_outputs n
       else net_outputs n ++ [t];
     net_layers := net_layers n |}.

(** [t->setName(name)]. *)
Definition net_setName (t : ITensor_ptr) (name : string)
    (n : INetworkDefinition) : INetworkDefinition :=
  {| net_tensors :=
       alter (fun ten => {| getName := name;
                            getDimensions := getDimensions ten |})
             t (net_tensors n);
     net_inputs := net_inputs n;
     net_outputs := net_outputs n;
     net_layers := net_layers n |}.

(** The names of the outputs, in order. *)
Definition output_names (n : INetworkDefinition) : list (option string) :=
  map (fun t => getName <$> net_tensors n !! t) (net_outputs n).

(** ** The state of a build *)

(** What can be observed of a build from outside, in the order it happens:
    a line on standard output, a change of the output marking, the call of
    the plan compiler. *)
Inductive Event : Type :=
| cout (line : string)
| unmarkOutput (t : ITensor_ptr)
| markOutput (t : ITensor_ptr)
| buildSerializedNetwork.

#[global] Instance Event_eq_dec : EqDecision Event.
Proof. solve_decision. Defined.

(** The locals [network], [builderConfig] and the profiles owned by
    [builder], with the events so far. *)
Record BuildState : Type := {
  network : INetworkDefinition;
  builderConfig : IBuilderConfig;
  builder_profiles : list IOptimizationProfile;
  events : list Event
}.

Definition empty_network : INetworkDefinition :=
  {| net_tensors := []; net_inputs := []; net_outputs := [];
     net_layers := [] |}.

Definition empty_config : IBuilderConfig :=
  {| cfg_flags := []; cfg_workspace := None; cfg_profiles := [];
     cfg_calibration_profile := None; cfg_int8_calibrator := None |}.

(** The state right after [createInferBuilder], [createBuilderConfig] and
    [createNetworkV2]. *)
Definition fresh_build : BuildState :=
  {| network := empty_network; builderConfig := empty_config;
     builder_profiles := []; events := [] |}.

Definition on_network (f : INetworkDefinition -> INetworkDefinition)
    (s : BuildState) : BuildState :=
  {| network := f (network s); builderConfig := builderConfig s;
     builder_profiles := builder_profiles s; events := events s |}.

Definition on_config (f : IBuilderConfig -> IBuilderConfig)
    (s : BuildState) : BuildState :=
  {| network := network s; builderConfig := f (builderConfig s);
     builder_profiles := builder_profiles s; events := events s |}.

Definition on_profiles
    (f : list IOptimizationProfile -> list IOptimizationProfile)
    (s : BuildState) : BuildState :=
  {| network := network s; builderConfig := builderConfig s;
     builder_profiles := f (builder_profiles s); events := events s |}.

Definition emit (e : Event) : M BuildState unit :=
  modify (fun s =>
    {| network := network s; builderConfig := builderConfig s;
       builder_profiles := builder_profiles s;
       events := events s ++ [e] |}).

(** *** Builder configuration *)

Definition config_setFlag (f : BuilderFlag) : M BuildState unit :=
  modify (on_config (fun c =>
    {| cfg_flags := if bool_decide (f ∈ cfg_flags c) then cfg_flags c
                    else f :: cfg_flags c;
       cfg_workspace := cfg_workspace c;
       cfg_profiles := cfg_profiles c;
       cfg_calibration_profile := cfg_calibration_profile c;
       cfg_int8_calibrator := cfg_int8_calibrator c |})).

Definition config_setMemoryPoolLimit (size : Z) : M BuildState unit :=
  modify (on_config (fun c =>
    {| cfg_flags := cfg_flags c;
       cfg_workspace := Some size;
       cfg_profiles := cfg_profiles c;
       cfg_calibration_profile := cfg_calibration_profile c;
       cfg_int8_calibrator := cfg_int8_calibrator c |})).

Definition config_addOptimizationProfile (p : IOptimizationProfile_ptr)
    : M BuildState unit :=
  modify (on_config (fun c =>
    {| cfg_flags := cfg_flags c;
       cfg_workspace := cfg_workspace c;
       cfg_profiles := cfg_profiles c ++ [p];
       cfg_calibration_profile := cfg_calibration_profile c;
       cfg_int8_calibrator := cfg_int8_calibrator c |})).

Definition config_setCalibrationProfile (p : IOptimizationProfile_ptr)
    : M BuildState unit :=
  modify (on_config (fun c =>
    {| cfg_flags := cfg_flags c;
       cfg_workspace := cfg_workspace c;
       cfg_profiles := cfg_profiles c;
       cfg_calibration_profile := Some p;
       cfg_int8_calibrator := cfg_int8_calibrator c |})).

Definition config_setInt8Calibrator (calib : Int8EntropyCalibrator)
    : M BuildState unit :=
  modify (on_config (fun c =>
    {| cfg_flags := cfg_flags c;
       cfg_workspace := cfg_workspace c;
       cfg_profiles := cfg_profiles c;
       cfg_calibration_profile := cfg_calibration_profile c;
       cfg_int8_calibrator := Some calib |})).

(** *** Profiles *)

(** [builder->createOptimizationProfile()]. *)
Definition builder_createOptimizationProfile
    : M BuildState IOptimizationProfile_ptr :=
  fun s => (Normal (length (builder_profiles s)),
            on_profiles (fun ps => ps ++ [[]]) s).

(** [profile->setDimensions(inputName, select, dims)]. *)
Definition setDimensions (profile : IOptimizationProfile_ptr)
    (inputName : string) (select : OptProfileSelector) (dims : Dims)
    : M BuildState unit :=
  modify (on_profiles
            (alter (profile_setDimensions inputName select dims) profile)).

(** [profile->isValid()]. *)
Definition isValid `{Collaborators} (profile : IOptimizationProfile_ptr)
    : M BuildState bool :=
  p ← gets (fun s => builder_profiles s !! profile);
  p ← deref p;
  mret (profile_isValid p).

(** *** Network and tensors *)

Definition network_getInput (i : nat) : M BuildState (option ITensor_ptr) :=
  gets (fun s => net_inputs (network s) !! i).

Definition network_getNbOutputs : M BuildState nat :=
  gets (fun s => length (net_outputs (network s))).

Definition network_getOutput (i : nat) : M BuildState (option ITensor_ptr) :=
  gets (fun s => net_outputs (network s) !! i).

(** The tensor a pointer [t] points to. *)
Definition tensor (t : option ITensor_ptr) : M BuildState ITensor :=
  t ← deref t;
  ten ← gets (fun s => net_tensors (network s) !! t);
  deref ten.

Definition network_addPluginV2 `{Collaborators}
    (inputs : list (option ITensor_ptr)) (plugin : IPluginV2)
    : M BuildState (option ILayer) :=
  fun s =>
    let '(layer, n) := net_addPluginV2 inputs plugin (network s) in
    (Normal layer, on_network (fun _ => n) s).

Definition network_addConcatenation `{Collaborators}
    (inputs : list (option ITensor_ptr)) : M BuildState (option ILayer) :=
  fun s =>
    let '(layer, n) := net_addConcatenation inputs (network s) in
    (Normal layer, on_network (fun _ => n) s).

(** [network->unmarkOutput] on the tensor [output] points to. *)
Definition network_unmarkOutput (output : option ITensor_ptr)
    : M BuildState unit :=
  t ← deref output;
  emit (unmarkOutput t);;
  modify (on_network (net_unmarkOutput t)).

(** [network->markOutput] on the tensor [output] points to. *)
Definition network_markOutput (output : option ITensor_ptr)
    : M BuildState unit :=
  t ← deref output;
  emit (markOutput t);;
  modify (on_network (net_markOutput t)).

(** [output->setName(name)]. *)
Definition tensor_setName (output : option ITensor_ptr) (name : string)
    : M BuildState unit :=
  t ← deref output;
  modify (on_network (net_setName t name)).

(** ** The building constructor

    [Engine::Engine(onnx_model, onnx_size, dynamic_batch_opts, precision,
    score_thresh, top_n, anchors, rotated, nms_thresh, detections_per_im,
    calibration_images, model_name, calibration_table, verbose,
    workspace_size)], block by block.  The argument [verbose] only sets up
    the logger that is handed to the libraries and is left out. *)

(** The vectors [scores], [boxes] and [classes]. *)
Definition Collected : Type :=
  (list (option ITensor_ptr) * list (option ITensor_ptr) *
   list (option ITensor_ptr))%type.

Section Constructor.
Context `{Collaborators}.
Variables (onnx_model : list Byte.byte) (onnx_size : nat).
Variable dynamic_batch_opts : list Z.
Variable precision : string.
Variables (score_thresh : float) (top_n : Z).
Variable anchors : list (list float).
Variable rotated : bool.
Variables (nms_thresh : float) (detections_per_im : Z).
Variable calibration_images : list string.
Variables (model_name calibration_table : string).
Variable workspace_size : Z.

Definition fp16 : bool := String.eqb precision "FP16".
Definition int8 : bool := String.eqb precision "INT8".

(** Create builder: the FP16 flag and the workspace limit. *)
Definition create_builder : M BuildState unit :=
  when (fp16 || int8) (config_setFlag kFP16);;
  config_setMemoryPoolLimit workspace_size.

(** Parse ONNX FCN. *)
Definition parse_onnx : M BuildState unit :=
  emit (cout (String.append "Building "
                (String.append precision " core model...")));;
  modify (on_network (fun _ => parser_parse onnx_model onnx_size)).

(** The optimization profile of the input; yields [inputDims] and
    [profile]. *)
Definition create_profile : M BuildState (Dims * IOptimizationProfile_ptr) :=
  input ← network_getInput 0;
  input_tensor ← tensor input;
  let inputDims := getDimensions input_tensor in
  profile ← builder_createOptimizationProfile;
  let inputName := getName input_tensor in
  bmin ← index dynamic_batch_opts 0;
  let profileDimsmin :=
    Dims4 bmin (d inputDims 1) (d inputDims 2) (d inputDims 3) in
  bopt ← index dynamic_batch_opts 1;
  let profileDimsopt :=
    Dims4 bopt (d inputDims 1) (d inputDims 2) (d inputDims 3) in
  bmax ← index dynamic_batch_opts 2;
  let profileDimsmax :=
    Dims4 bmax (d inputDims 1) (d inputDims 2) (d inputDims 3) in
  setDimensions profile inputName kMIN profileDimsmin;;
  setDimensions profile inputName kOPT profileDimsopt;;
  setDimensions profile inputName kMAX profileDimsmax;;
  valid ← isValid profile;
  when valid (config_addOptimizationProfile profile);;
  mret (inputDims, profile).

(** The INT8 branch: flag, calibration profile, image stream and
    calibrator. *)
Definition calibrate (inputDims : Dims) (profile : IOptimizationProfile_ptr)
    : M BuildState unit :=
  if int8 then
    config_setFlag kINT8;;
    config_setCalibrationProfile profile;;
    batch ← index dynamic_batch_opts 1;
    let stream :=
      {| stream_batch := batch; stream_inputDims := inputDims;
         stream_calibration_images := calibration_images |} in
    let calib :=
      {| calib_stream := stream; calib_model_name := model_name;
         calib_calibration_table := calibration_table |} in
    config_setInt8Calibrator calib
  else mret tt.

(** Add decode plugins: one round of the loop. *)
Definition decode_body (inputDims : Dims) (nbOutputs : nat) (i : nat)
    (acc : Collected) : M BuildState Collected :=
  let '(scores, boxes, classes) := acc in
  classOutput ← network_getOutput i;
  boxOutput ← network_getOutput (nbOutputs / 2 + i)%nat;
  class_tensor ← tensor classOutput;
  let outputDims := getDimensions class_tensor in
  scale ← int_div (d inputDims 2) (d outputDims 2);
  anchors_i ← index anchors i;
  let decodePlugin := DecodePlugin score_thresh top_n anchors_i scale in
  let decodeRotatePlugin :=
    DecodeRotatePlugin score_thresh top_n anchors_i scale in
  let inputs := [classOutput; boxOutput] in
  layer ← network_addPluginV2 inputs
            (if negb rotated then decodePlugin else decodeRotatePlugin);
  layer ← deref layer;
  mret (scores ++ [layer_getOutput layer 0],
        boxes ++ [layer_getOutput layer 1],
        classes ++ [layer_getOutput layer 2]).

Definition add_decode_plugins (inputDims : Dims) (nbOutputs : nat)
    : M BuildState Collected :=
  for_range 0 (nbOutputs / 2)%nat (decode_body inputDims nbOutputs)
    ([], [], []).

(** Cleanup outputs. *)
Definition cleanup_outputs (nbOutputs : nat) : M BuildState unit :=
  for_range 0 nbOutputs
    (fun _ _ => output ← network_getOutput 0; network_unmarkOutput output)
    tt.

(** Concat tensors from each feature map. *)
Definition concat_body (tensors : list (option ITensor_ptr))
    (concat : list (option ITensor_ptr))
    : M BuildState (list (option ITensor_ptr)) :=
  layer ← network_addConcatenation tensors;
  layer ← deref layer;
  mret (concat ++ [layer_getOutput layer 0]).

Definition concat_tensors (collected : Collected)
    : M BuildState (list (option ITensor_ptr)) :=
  let '(scores, boxes, classes) := collected in
  concat ← concat_body scores [];
  concat ← concat_body boxes concat;
  concat_body classes concat.

(** Add NMS plugin and mark its outputs. *)
Definition names : list string := ["scores"; "boxes"; "classes"].

Definition mark_body (layer : ILayer) (i : nat) (_ : unit)
    : M BuildState unit :=
  let output := layer_getOutput layer i in
  network_markOutput output;;
  name ← index names i;
  tensor_setName output name.

Definition add_nms_plugin (concat : list (option ITensor_ptr))
    : M BuildState unit :=
  let nmsPlugin := NMSPlugin nms_thresh detections_per_im in
  let nmsRotatePlugin := NMSRotatePlugin nms_thresh detections_per_im in
  layer ← network_addPluginV2 concat
            (if negb rotated then nmsPlugin else nmsRotatePlugin);
  layer ← deref layer;
  for_range 0 (layer_getNbOutputs layer) (mark_body layer) tt.

(** Build engine; yields [_plan]. *)
Definition build_engine : M BuildState (option IHostMemory) :=
  emit (cout "Applying optimizations and building TRT CUDA engine...");;
  emit buildSerializedNetwork;;
  gets (fun s => builder_buildSerializedNetwork (network s)
                   (builderConfig s) (builder_profiles s)).

(** Everything from "Building accelerated plugins..." to the marking of
    the new outputs. *)
Definition build_plugins (inputDims : Dims) : M BuildState unit :=
  emit (cout "Building accelerated plugins...");;
  nbOutputs ← network_getNbOutputs;
  collected ← add_decode_plugins inputDims nbOutputs;
  cleanup_outputs nbOutputs;;
  concat ← concat_tensors collected;
  add_nms_plugin concat.

Definition Engine_build : M BuildState (option IHostMemory) :=
  create_builder;;
  parse_onnx;;
  '(inputDims, profile) ← create_profile;
  calibrate inputDims profile;;
  build_plugins inputDims;;
  build_engine.

End Constructor.

(** ** A loaded engine *)

(** [cudaStream_t]: [0] is the null handle, the device hands out [1], [2],
    ... in turn. *)
Definition cudaStream_t : Type := nat.

(** [void *]: a device address. *)
Definition device_address : Type := Z.

(** [ICudaEngine]: the I/O tensors of the plan with their declared shapes,
    in the engine's own order. *)
Record ICudaEngine : Type := {
  io_tensors : list (string * Dims)
}.

Definition getNbIOTensors (engine : ICudaEngine) : nat :=
  length (io_tensors engine).

(** [engine->getIOTensorName(i)]: null when [i] is out of range. *)
Definition getIOTensorName (engine : ICudaEngine) (i : nat) : option string :=
  fst <$> io_tensors engine !! i.

Fixpoint shape_of (name : string) (io : list (string * Dims)) : option Dims :=
  match io with
  | [] => None
  | (name', dims) :: io' =>
      if String.eqb name' name then Some dims else shape_of name io'
  end.

(** [engine->getTensorShape(name)]: the shape declared for the tensor of
    that name; the shape without dimensions when there is none. *)
Definition getTensorShape (engine : ICudaEngine) (name : option string)
    : Dims :=
  match name with
  | Some name => default [] (shape_of name (io_tensors engine))
  | None => []
  end.

(** [IExecutionContext]: the selected profile and the addresses bound to
    tensor names, latest first. *)
Record IExecutionContext : Type := {
  ctx_profile : option Z;
  ctx_addresses : list (string * device_address)
}.

(** The members of [Engine] that the runtime side uses. *)
Record Engine : Type := {
  _engine : option ICudaEngine;
  _context : option IExecutionContext;
  _stream : cudaStream_t
}.

(** The states of section 4.4 of the specification. *)
Inductive EngineState : Type := Unloaded | Loaded | Ready.

Definition state_of (e : Engine) : EngineState :=
  match _engine e, _context e with
  | None, _ => Unloaded
  | Some _, None => Loaded
  | Some _, Some _ => Ready
  end.

(** The calls into TensorRT and CUDA, in the order they are made. *)
Inductive Call : Type :=
| createExecutionContext
| setOptimizationProfileAsync (profileIndex : Z) (stream : cudaStream_t)
| cudaStreamCreate (stream : cudaStream_t)
| setTensorAddress (name : option string) (address : device_address)
| enqueueV3 (stream : cudaStream_t)
| cudaStreamSynchronize (stream : cudaStream_t).

#[global] Instance Call_eq_dec : EqDecision Call.
Proof. solve_decision. Defined.

(** The engine object, the number of streams the device has handed out, and
    the calls so far. *)
Record RunState : Type := {
  this : Engine;
  device_streams : nat;
  calls : list Call
}.

Definition on_this (f : Engine -> Engine) (s : RunState) : RunState :=
  {| this := f (this s); device_streams := device_streams s;
     calls := calls s |}.

Definition call (c : Call) : M RunState unit :=
  modify (fun s =>
    {| this := this s; device_streams := device_streams s;
       calls := calls s ++ [c] |}).

Definition set_context (c : IExecutionContext) (e : Engine) : Engine :=
  {| _engine := _engine e; _context := Some c; _stream := _stream e |}.

Definition set_stream (h : cudaStream_t) (e : Engine) : Engine :=
  {| _engine := _engine e; _context := _context e; _stream := h |}.

(** [_context = _engine->createExecutionContext()]. *)
Definition engine_createExecutionContext : M RunState unit :=
  engine ← gets (fun s => _engine (this s));
  _ ← deref engine;
  call createExecutionContext;;
  modify (on_this (set_context {| ctx_profile := None; ctx_addresses := [] |})).

(** [_context->setOptimizationProfileAsync(profileIndex, stream)]. *)
Definition context_setOptimizationProfileAsync (profileIndex : Z)
    (stream : cudaStream_t) : M RunState unit :=
  context ← gets (fun s => _context (this s));
  context ← deref context;
  call (setOptimizationProfileAsync profileIndex stream);;
  modify (on_this (set_context
    {| ctx_profile := Some profileIndex;
       ctx_addresses := ctx_addresses context |})).

(** [cudaStreamCreate(&_stream)]: the next handle of the device is stored
    in [_stream]. *)
Definition stream_create : M RunState unit :=
  fun s =>
    let h := S (device_streams s) in
    (Normal tt,
     {| this := set_stream h (this s); device_streams := h;
        calls := calls s ++ [cudaStreamCreate h] |}).

(** [_context->setTensorAddress(name, address)]. *)
Definition context_setTensorAddress (name : option string)
    (address : device_address) : M RunState unit :=
  context ← gets (fun s => _context (this s));
  context ← deref context;
  call (setTensorAddress name address);;
  modify (on_this (set_context
    {| ctx_profile := ctx_profile context;
       ctx_addresses :=
         match name with
         | Some name => (name, address) :: ctx_addresses context
         | None => ctx_addresses context
         end |})).

(** [_context->enqueueV3(stream)]. *)
Definition context_enqueueV3 (stream : cudaStream_t) : M RunState unit :=
  context ← gets (fun s => _context (this s));
  _ ← deref context;
  call (enqueueV3 stream).

(** [void Engine::_prepare()]. *)
Definition _prepare : M RunState unit :=
  engine_createExecutionContext;;
  stream ← gets (fun s => _stream (this s));
  context_setOptimizationProfileAsync 0 stream;;
  stream_create.

(** [void Engine::infer(vector<void *> &buffers, int batch)]. *)
Definition infer (buffers : list device_address) (batch : Z)
    : M RunState unit :=
  engine ← gets (fun s => _engine (this s));
  engine ← deref engine;
  let e := getNbIOTensors engine in
  for_range 0 e
    (fun i _ =>
       let name := getIOTensorName engine i in
       address ← vector_at buffers i;
       context_setTensorAddress name address) tt;;
  stream ← gets (fun s => _stream (this s));
  context_enqueueV3 stream;;
  call (cudaStreamSynchronize stream).

(** [vector<int> Engine::getInputSize()]. *)
Definition getInputSize : M RunState (list Z) :=
  engine ← gets (fun s => _engine (this s));
  engine ← deref engine;
  let dims := getTensorShape engine (getIOTensorName engine 0) in
  mret [d dims 2; d dims 3].

(** [int Engine::getMaxBatchSize()]. *)
Definition getMaxBatchSize : M RunState Z := mret 1.

(** [int Engine::getMaxDetections()]. *)
Definition getMaxDetections : M RunState Z :=
  engine ← gets (fun s => _engine (this s));
  engine ← deref engine;
  let dims := getTensorShape engine (getIOTensorName engine 1) in
  mret (d dims 1).

(** [int Engine::getStride()]. *)
Definition getStride : M RunState Z := mret 1.

(** What the destructor asks of the CUDA runtime. *)
Inductive Teardown : Type :=
| cudaStreamDestroy (stream : cudaStream_t).

(** [Engine::~Engine()]: the stream is destroyed unless its handle is
    null. *)
Definition Engine_destructor (e : Engine) : list Teardown :=
  match _stream e with
  | O => []
  | S _ => [cudaStreamDestroy (_stream e)]
  end.

(** What [save] does to standard output and to the file system: a line, the
    opening of the file for writing (which empties it), the bytes written. *)
Inductive FileEvent : Type :=
| file_cout (line : string)
| ofstream_open (path : string)
| ofstream_write (path : string) (bytes : IHostMemory).

(** [void Engine::save(const string &path)], on the member [_plan]. *)
Definition save (_plan : option IHostMemory) (path : string)
    : M (list FileEvent) unit :=
  modify (fun out =>
    out ++ [file_cout (String.append "Writing to "
                         (String.append path "..."))]);;
  modify (fun out => out ++ [ofstream_open path]);;
  plan ← deref _plan;
  modify (fun out => out ++ [ofstream_write path plan]).

(** ** A concrete setting

    A detector with two scales on a 512 x 512 input, and collaborators that
    accept it; used to run the definitions above on actual inputs. *)
Module Sample.

Definition parsed : INetworkDefinition :=
  {| net_tensors :=
       [ {| getName := "input_1"; getDimensions := [1; 3; 512; 512] |};
         {| getName := "cls_0"; getDimensions := [1; 720; 64; 64] |};
         {| getName := "cls_1"; getDimensions := [1; 720; 32; 32] |};
         {| getName := "box_0"; getDimensions := [1; 36; 64; 64] |};
         {| getName := "box_1"; getDimensions := [1; 36; 32; 32] |} ];
     net_inputs := [0%nat];
     net_outputs := [1%nat; 2%nat; 3%nat; 4%nat];
     net_layers := [] |}.

Definition le_dims (a b : Dims) : bool :=
  bool_decide (length a = length b) &&
  forallb (fun p => fst p <=? snd p) (zip a b).

(** Valid when the profile holds all three shapes of some input, ordered
    componentwise. *)
Definition valid (p : IOptimizationProfile) : bool :=
  match p with
  | [] => false
  | (name, _, _) :: _ =>
      match profile_getDimensions name kMIN p,
            profile_getDimensions name kOPT p,
            profile_getDimensions name kMAX p with
      | Some lo, Some mid, Some hi => le_dims lo mid && le_dims mid hi
      | _, _, _ => false
      end
  end.

Definition plugin_dims (p : IPluginV2) (k : nat) (_ : list Dims) : Dims :=
  let rows := match p with
              | DecodePlugin _ top_n _ _ => top_n
              | DecodeRotatePlugin _ top_n _ _ => top_n
              | NMSPlugin _ detections => detections
              | NMSRotatePlugin _ detections => detections
              end in
  [rows * (if bool_decide (k = 1%nat) then 4 else 1); 1; 1].

Definition concat_dims (ds : list Dims) : Dims :=
  match ds with
  | [] => []
  | dims :: _ => foldr Z.add 0 (map (fun x => d x 0) ds) :: tail dims
  end.

Definition collaborators : Collaborators :=
  {| parser_parse := fun _ _ => parsed;
     profile_isValid := valid;
     plugin_getOutputDimensions := plugin_dims;
     concatenation_dims := concat_dims;
     builder_buildSerializedNetwork := fun n c ps =>
       match cfg_profiles c with
       | [] => None
       | _ :: _ => Some []
       end |}.

Definition half : float := S754_finite false 1 (-1).

Definition anchors : list (list float) :=
  [ [S754_zero false; S754_zero false; half; half];
    [S754_zero false; S754_zero false; half; half] ].

(** The building constructor on the sample model. *)
Definition build (dynamic_batch_opts : list Z) (precision : string)
    (anchors : list (list float)) (rotated : bool)
    : Outcome (option IHostMemory) * BuildState :=
  run (@Engine_build collaborators [] 0 dynamic_batch_opts precision half
         1000 anchors rotated half 100 ["a.jpg"; "b.jpg"] "model" "table"
         1024)
      fresh_build.

(** The input tensor of the sample model. *)
Definition input_tensor : ITensor :=
  {| getName := "input_1"; getDimensions := [1; 3; 512; 512] |}.

(** Three anchor lists for the two scales of the sample model. *)
Definition surplus_anchors : list (list float) := anchors ++ [[half]].

Definition engine : ICudaEngine :=
  {| io_tensors :=
       [ ("input_1", [1; 3; 512; 512]);
         ("scores", [1; 100]);
         ("boxes", [1; 400]);
         ("classes", [1; 100]) ] |}.

(** An engine object whose plan has been deserialized. *)
Definition loaded : RunState :=
  {| this := {| _engine := Some engine; _context := None; _stream := 0%nat |};
     device_streams := 0%nat;
     calls := [] |}.

(** The same object after [_prepare]. *)
Definition ready : RunState := snd (run _prepare loaded).

(** The sample collaborators with a parser that yields [n]. *)
Definition parsing (n : INetworkDefinition) : Collaborators :=
  {| parser_parse := fun _ _ => n;
     profile_isValid := valid;
     plugin_getOutputDimensions := plugin_dims;
     concatenation_dims := concat_dims;
     builder_buildSerializedNetwork := fun n c ps =>
       match cfg_profiles c with
       | [] => None
       | _ :: _ => Some []
       end |}.

(** One scale, with a class map that has two dimensions only. *)
Definition flat : INetworkDefinition :=
  {| net_tensors :=
       [ {| getName := "input_1"; getDimensions := [1; 3; 512; 512] |};
         {| getName := "cls_0"; getDimensions := [1; 720] |};
         {| getName := "box_0"; getDimensions := [1; 36; 64; 64] |} ];
     net_inputs := [0%nat];
     net_outputs := [1%nat; 2%nat];
     net_layers := [] |}.

(** The sample model with a fifth output. *)
Definition odd : INetworkDefinition :=
  {| net_tensors :=
       net_tensors parsed ++
       [ {| getName := "aux"; getDimensions := [1; 8; 8; 8] |} ];
     net_inputs := [0%nat];
     net_outputs := [1%nat; 2%nat; 3%nat; 4%nat; 5%nat];
     net_layers := [] |}.

(** Collaborators whose parser leaves the network empty, as after a failed
    parse. *)
Definition nothing_parsed : Collaborators :=
  {| parser_parse := fun _ _ => empty_network;
     profile_isValid := valid;
     plugin_getOutputDimensions := plugin_dims;
     concatenation_dims := concat_dims;
     builder_buildSerializedNetwork := fun n c ps => None |}.

End Sample.

(** ** Statements about runs *)

(** The run of [m] from [s] ends normally, in a result and a state that
    satisfy [Q]. *)
Definition returns {St A : Type} (m : M St A) (s : St)
    (Q : A -> St -> Prop) : Prop :=
  exists a s', run m s = (Normal a, s') /\ Q a s'.

(** The run of [m] from [s] stops with the fault [f], in a state that
    satisfies [Q]. *)
Definition aborts {St A : Type} (m : M St A) (s : St) (f : Fault)
    (Q : St -> Prop) : Prop :=
  exists s', run m s = (Abort f, s') /\ Q s'.

(** However the run of [m] ends, the state it ends in is related by [R] to
    the state it started from. *)
Definition keeps {St A : Type} (R : relation St) (m : M St A) : Prop :=
  forall s, R s (snd (run m s)).

(** The builder configuration and the profiles are the same. *)
Definition same_builder : relation BuildState :=
  fun s s' =>
    builderConfig s = builderConfig s' /\
    builder_profiles s = builder_profiles s'.

Definition same_fp16 : relation BuildState :=
  fun s s' =>
    getFlag kFP16 (builderConfig s) = getFlag kFP16 (builderConfig s').

Definition same_calibrator : relation BuildState :=
  fun s s' =>
    cfg_int8_calibrator (builderConfig s) =
    cfg_int8_calibrator (builderConfig s').

(** The events that change which tensors are outputs. *)
Definition is_marking (e : Event) : bool :=
  match e with
  | unmarkOutput _ | markOutput _ => true
  | cout _ | buildSerializedNetwork => false
  end.

(** The height of the class map of scale [i]: dimension 2 of output [i]. *)
Definition class_map_height (n : INetworkDefinition) (i : nat) : option Z :=
  t ← net_outputs n !! i;
  ten ← net_tensors n !! t;
  Some (d (getDimensions ten) 2).

(** What the constructor relies on in the parsed network: the outputs are
    distinct tensors of the network, and no class map has height zero. *)
Definition well_formed (n : INetworkDefinition) : bool :=
  bool_decide (NoDup (net_outputs n)) &&
  forallb (fun t => bool_decide (t < length (net_tensors n))%nat)
          (net_outputs n) &&
  forallb (fun i => match class_map_height n i with
                    | Some h => negb (h =? 0)
                    | None => false
                    end)
          (seq 0 (length (net_outputs n) / 2)).

(** The decode layer of scale [i] as the algorithm describes it: it joins
    output [i] with output [S + i] of the parsed network [n], and its plugin
    carries the thresholds, the anchors of the scale and the quotient of
    the input height by the height of the class map. *)
Definition decode_layer (n : INetworkDefinition) (inputDims : Dims)
    (score_thresh : float) (top_n : Z) (anchors : list (list float))
    (rotated : bool) (i : nat) (layer : ILayer) : Prop :=
  exists (classOutput boxOutput : ITensor_ptr) (class_map : ITensor)
         (anchors_i : list float) (outs : list ITensor_ptr),
    net_outputs n !! i = Some classOutput /\
    net_outputs n !! (length (net_outputs n) / 2 + i)%nat = Some boxOutput /\
    net_tensors n !! classOutput = Some class_map /\
    anchors !! i = Some anchors_i /\
    layer =
      PluginV2Layer [classOutput; boxOutput]
        ((if rotated then DecodeRotatePlugin else DecodePlugin)
           score_thresh top_n anchors_i
           (Z.quot (d inputDims 2) (d (getDimensions class_map) 2)))
        outs.

(** What the plugin blocks make of the state [s0] they start in: the
    builder is untouched; the events added are the unmarking of every
    output of [s0], in order, followed by the marking of the outputs the
    network has in the end; these are named "scores", "boxes" and "classes";
    none of them was an output before; and the layers added first are the
    decode layers of the scales. *)
Definition rewritten (inputDims : Dims) (score_thresh : float) (top_n : Z)
    (anchors : list (list float)) (rotated : bool)
    (s0 s : BuildState) : Prop :=
  builderConfig s = builderConfig s0 /\
  builder_profiles s = builder_profiles s0 /\
  events s =
    events s0 ++ map unmarkOutput (net_outputs (network s0)) ++
    map markOutput (net_outputs (network s)) /\
  output_names (network s) = [Some "scores"; Some "boxes"; Some "classes"] /\
  (forall t, t ∈ net_outputs (network s0) -> t ∉ net_outputs (network s)) /\
  (forall i, (i < length (net_outputs (network s0)) / 2)%nat ->
     exists layer,
       net_layers (network s) !! (length (net_layers (network s0)) + i)%nat =
         Some layer /\
       decode_layer (network s0) inputDims score_thresh top_n anchors rotated
         i layer).

(** A build that stops on a configuration error before anything is done
    with the parsed network [n]: it ends with a fault, the line "Applying
    optimizations..." is not printed, the plan compiler is not called, and
    the network is still [n]. *)
Definition fails_fast (n : INetworkDefinition)
    (result : Outcome (option IHostMemory) * BuildState) : Prop :=
  (exists f, fst result = Abort f) /\
  (cout "Applying optimizations and building TRT CUDA engine..."
     ∉ events (snd result)) /\
  (buildSerializedNetwork ∉ events (snd result)) /\
  network (snd result) = n.

(** The address in force for the tensor [name]: the one bound last. *)
Fixpoint address_of (name : string)
    (bindings : list (string * device_address)) : option device_address :=
  match bindings with
  | [] => None
  | (name', address) :: bindings' =>
      if String.eqb name' name then Some address
      else address_of name bindings'
  end.

(** The network is the same. *)
Definition same_network : relation BuildState :=
  fun s s' => network s = network s'.

(** [n'] has the inputs of [n], the layers of [n] followed by others, and
    every tensor of [n] at its place with its shape. *)
Definition extends (n n' : INetworkDefinition) : Prop :=
  net_inputs n' = net_inputs n /\
  net_layers n `prefix_of` net_layers n' /\
  forall t ten,
    net_tensors n !! t = Some ten ->
    exists ten',
      net_tensors n' !! t = Some ten' /\
      getDimensions ten' = getDimensions ten.

Definition network_extended : relation BuildState :=
  fun s s' => extends (network s) (network s').

(** ** Rules for runs *)

Section Rules.
Context {St : Type}.

Lemma run_bind {A B : Type} (m : M St A) (k : A -> M St B) (s : St) :
  run (m ≫= k) s =
  match run m s with
  | (Normal a, s') => run (k a) s'
  | (Abort f, s') => (Abort f, s')
  end.
Proof. reflexivity. Qed.

Lemma returns_ret {A : Type} (a : A) (s : St) (Q : A -> St -> Prop) :
  Q a s -> returns (mret a) s Q.
Proof. intros HQ. exists a, s. split; [reflexivity | exact HQ]. Qed.

Lemma returns_bind {A B : Type} (m : M St A) (k : A -> M St B) (s : St)
    (Q : B -> St -> Prop) :
  returns m s (fun a s' => returns (k a) s' Q) ->
  returns (m ≫= k) s Q.
Proof.
  intros (a & s' & Hm & b & s'' & Hk & HQ).
  exists b, s''. split; [| exact HQ].
  rewrite run_bind, Hm. exact Hk.
Qed.

Lemma returns_mono {A : Type} (m : M St A) (s : St)
    (Q Q' : A -> St -> Prop) :
  returns m s Q -> (forall a s', Q a s' -> Q' a s') -> returns m s Q'.
Proof. intros (a & s' & Hm & HQ) Himp. exists a, s'. auto. Qed.

Lemma returns_gets {A : Type} (f : St -> A) (s : St)
    (Q : A -> St -> Prop) :
  Q (f s) s -> returns (gets f) s Q.
Proof. intros HQ. exists (f s), s. split; [reflexivity | exact HQ]. Qed.

Lemma returns_modify (f : St -> St) (s : St) (Q : unit -> St -> Prop) :
  Q tt (f s) -> returns (modify f) s Q.
Proof. intros HQ. exists tt, (f s). split; [reflexivity | exact HQ]. Qed.

Lemma returns_deref {A : Type} (p : option A) (a : A) (s : St)
    (Q : A -> St -> Prop) :
  p = Some a -> Q a s -> returns (deref p) s Q.
Proof. intros -> HQ. apply returns_ret, HQ. Qed.

Lemma returns_index {A : Type} (v : list A) (i : nat) (a : A) (s : St)
    (Q : A -> St -> Prop) :
  v !! i = Some a -> Q a s -> returns (index v i) s Q.
Proof. intros Hv HQ. unfold index. rewrite Hv. apply returns_ret, HQ. Qed.

Lemma returns_vector_at {A : Type} (v : list A) (i : nat) (a : A) (s : St)
    (Q : A -> St -> Prop) :
  v !! i = Some a -> Q a s -> returns (vector_at v i) s Q.
Proof.
  intros Hv HQ. unfold vector_at. rewrite Hv. apply returns_ret, HQ.
Qed.

Lemma returns_int_div (a b : Z) (s : St) (Q : Z -> St -> Prop) :
  b <> 0 -> Q (Z.quot a b) s -> returns (int_div a b) s Q.
Proof.
  intros Hb HQ. unfold int_div.
  destruct (Z.eqb_spec b 0) as [-> | _]; [contradiction |].
  apply returns_ret, HQ.
Qed.

(** A loop that keeps an invariant [I], indexed by the rounds done. *)
Lemma returns_for_range {A : Type} (I : nat -> A -> St -> Prop)
    (body : nat -> A -> M St A) (count first : nat) (acc : A) (s : St) :
  (forall i acc s, (first <= i < first + count)%nat -> I i acc s ->
     returns (body i acc) s (I (S i))) ->
  I first acc s ->
  returns (for_range first count body acc) s (I (first + count)%nat).
Proof.
  revert first acc s.
  induction count as [| count IH]; intros first acc s Hbody HI.
  - apply returns_ret. rewrite Nat.add_0_r. exact HI.
  - cbn [for_range]. apply returns_bind.
    eapply returns_mono; [apply Hbody; [lia | exact HI] |].
    intros acc' s' HI'. cbv beta.
    replace (first + S count)%nat with (S first + count)%nat by lia.
    apply IH; [| exact HI'].
    intros i acc0 s0 Hi. apply Hbody. lia.
Qed.

(** *** What every run keeps *)

Context (R : relation St) `{!PreOrder R}.

Lemma keeps_ret {A : Type} (a : A) : keeps R (mret a : M St A).
Proof. intros s. reflexivity. Qed.

Lemma keeps_raise {A : Type} (f : Fault) : keeps R (raise f : M St A).
Proof. intros s. reflexivity. Qed.

Lemma keeps_gets {A : Type} (f : St -> A) : keeps R (gets f).
Proof. intros s. reflexivity. Qed.

Lemma keeps_bind {A B : Type} (m : M St A) (k : A -> M St B) :
  keeps R m -> (forall a, keeps R (k a)) -> keeps R (m ≫= k).
Proof.
  intros Hm Hk s. rewrite run_bind.
  specialize (Hm s). destruct (run m s) as [[a | f] s']; cbn in *.
  - etransitivity; [exact Hm | apply Hk].
  - exact Hm.
Qed.

Lemma keeps_modify (f : St -> St) :
  (forall s, R s (f s)) -> keeps R (modify f).
Proof. intros Hf s. apply Hf. Qed.

Lemma keeps_deref {A : Type} (p : option A) : keeps R (deref p : M St A).
Proof. destruct p; [apply keeps_ret | apply keeps_raise]. Qed.

Lemma keeps_index {A : Type} (v : list A) (i : nat) :
  keeps R (index v i : M St A).
Proof.
  unfold index. destruct (v !! i); [apply keeps_ret | apply keeps_raise].
Qed.

Lemma keeps_int_div (a b : Z) : keeps R (int_div a b : M St Z).
Proof.
  unfold int_div. destruct (b =? 0); [apply keeps_raise | apply keeps_ret].
Qed.

Lemma keeps_when (b : bool) (m : M St unit) :
  keeps R m -> keeps R (when b m).
Proof. intros Hm. destruct b; [exact Hm | apply keeps_ret]. Qed.

Lemma keeps_for_range {A : Type} (body : nat -> A -> M St A)
    (count first : nat) (acc : A) :
  (forall i acc, keeps R (body i acc)) ->
  keeps R (for_range first count body acc).
Proof.
  intros Hbody. revert first acc.
  induction count as [| count IH]; intros first acc.
  - apply keeps_ret.
  - cbn [for_range]. apply keeps_bind; [apply Hbody | intros acc'; apply IH].
Qed.

End Rules.

(** Unfold the monad and compute as far as the state allows. *)
Ltac run_simpl :=
  unfold run, mbind, M_bind, mret, M_ret, gets, modify, deref, raise, emit,
    index;
  cbn.

(** ** What the blocks of the constructor leave alone *)

#[global] Instance same_builder_preorder : PreOrder same_builder.
Proof.
  split.
  - intros s. split; reflexivity.
  - intros s1 s2 s3 [H1 H2] [H3 H4]. split; congruence.
Qed.

#[global] Instance same_fp16_preorder : PreOrder same_fp16.
Proof.
  split.
  - intros s. reflexivity.
  - intros s1 s2 s3 H1 H2. unfold same_fp16 in *. congruence.
Qed.

#[global] Instance same_calibrator_preorder : PreOrder same_calibrator.
Proof.
  split.
  - intros s. reflexivity.
  - intros s1 s2 s3 H1 H2. unfold same_calibrator in *. congruence.
Qed.

Lemma keeps_weaken {St A : Type} (R R' : relation St) (m : M St A) :
  (forall s s', R s s' -> R' s s') -> keeps R m -> keeps R' m.
Proof. intros Himp Hm s. apply Himp, Hm. Qed.

Lemma same_builder_fp16 s s' : same_builder s s' -> same_fp16 s s'.
Proof. intros [Hc _]. unfold same_fp16. rewrite Hc. reflexivity. Qed.

Lemma same_builder_calibrator s s' :
  same_builder s s' -> same_calibrator s s'.
Proof. intros [Hc _]. unfold same_calibrator. rewrite Hc. reflexivity. Qed.

Create HintDb keeps discriminated.

#[global] Hint Resolve keeps_ret keeps_raise keeps_gets keeps_deref
  keeps_index keeps_int_div keeps_when keeps_for_range keeps_bind : keeps.
#[global] Hint Extern 0 (PreOrder _) => (typeclasses eauto) : keeps.

Ltac keeps_seq := apply keeps_bind; [typeclasses eauto | |].

Lemma keeps_emit (R : relation BuildState) (e : Event) :
  (forall s s', network s = network s' -> builderConfig s = builderConfig s' ->
     builder_profiles s = builder_profiles s' -> R s s') ->
  keeps R (emit e).
Proof. intros HR s. apply HR; reflexivity. Qed.

Lemma keeps_on_network (f : INetworkDefinition -> INetworkDefinition) :
  keeps same_builder (modify (on_network f)).
Proof. intros s. split; reflexivity. Qed.

Lemma keeps_on_config (R : relation BuildState)
    (f : IBuilderConfig -> IBuilderConfig) :
  (forall s, R s (on_config f s)) -> keeps R (modify (on_config f)).
Proof. intros HR. apply keeps_modify, HR. Qed.

Lemma keeps_emit_builder (e : Event) : keeps same_builder (emit e).
Proof. intros s. split; reflexivity. Qed.

Lemma keeps_emit_fp16 (e : Event) : keeps same_fp16 (emit e).
Proof. intros s. reflexivity. Qed.

Lemma keeps_emit_calibrator (e : Event) : keeps same_calibrator (emit e).
Proof. intros s. reflexivity. Qed.

#[global] Hint Resolve keeps_on_network keeps_emit_builder keeps_emit_fp16
  keeps_emit_calibrator : keeps.

Lemma keeps_tensor (R : relation BuildState) `{!PreOrder R}
    (t : option ITensor_ptr) : keeps R (tensor t).
Proof. unfold tensor. auto with keeps. Qed.

#[global] Hint Resolve keeps_tensor : keeps.

Section KeepsBuilder.
Context `{Collaborators}.

Lemma keeps_addPluginV2 inputs plugin :
  keeps same_builder (network_addPluginV2 inputs plugin).
Proof.
  intros s. unfold run, network_addPluginV2.
  destruct (net_addPluginV2 inputs plugin (network s)).
  split; reflexivity.
Qed.

Lemma keeps_addConcatenation inputs :
  keeps same_builder (network_addConcatenation inputs).
Proof.
  intros s. unfold run, network_addConcatenation.
  destruct (net_addConcatenation inputs (network s)).
  split; reflexivity.
Qed.

Lemma keeps_unmarkOutput output :
  keeps same_builder (network_unmarkOutput output).
Proof. unfold network_unmarkOutput. auto with keeps. Qed.

Lemma keeps_markOutput output :
  keeps same_builder (network_markOutput output).
Proof. unfold network_markOutput. auto with keeps. Qed.

Lemma keeps_setName output name :
  keeps same_builder (tensor_setName output name).
Proof. unfold tensor_setName. auto with keeps. Qed.

Hint Resolve keeps_addPluginV2 keeps_addConcatenation keeps_unmarkOutput
  keeps_markOutput keeps_setName : keeps.

Lemma keeps_build_plugins score_thresh top_n anchors rotated nms_thresh
    detections_per_im inputDims :
  keeps same_builder
    (build_plugins score_thresh top_n anchors rotated nms_thresh
       detections_per_im inputDims).
Proof.
  unfold build_plugins. keeps_seq; [auto with keeps |]. intros _.
  keeps_seq; [apply keeps_gets; apply _ |]. intros nbOutputs.
  keeps_seq.
  { unfold add_decode_plugins. apply keeps_for_range; [apply _ |].
    intros i [[scores boxes] classes]. unfold decode_body.
    unfold network_getOutput. auto 12 with keeps. }
  intros [[scores boxes] classes].
  keeps_seq.
  { unfold cleanup_outputs, network_getOutput. auto with keeps. }
  intros _. keeps_seq.
  { unfold concat_tensors, concat_body. auto 10 with keeps. }
  intros concat. unfold add_nms_plugin, mark_body. auto 10 with keeps.
Qed.

Lemma keeps_build_engine : keeps same_builder build_engine.
Proof. unfold build_engine. auto with keeps. Qed.

Lemma keeps_parse_onnx onnx_model onnx_size precision :
  keeps same_builder (parse_onnx onnx_model onnx_size precision).
Proof. unfold parse_onnx. auto with keeps. Qed.

End KeepsBuilder.

(** The profile block and the later blocks never touch the FP16 flag, and
    only the INT8 branch touches the calibrator. *)
Section KeepsFlags.
Context `{Collaborators}.

Lemma getFlag_setFlag_other (f g : BuilderFlag) (flags : list BuilderFlag) :
  f <> g ->
  bool_decide (f ∈ (if bool_decide (g ∈ flags) then flags else g :: flags)) =
  bool_decide (f ∈ flags).
Proof.
  intros Hfg. apply bool_decide_ext.
  destruct (bool_decide (g ∈ flags)); [reflexivity |].
  rewrite elem_of_cons. tauto.
Qed.

Lemma keeps_fp16_setFlag_INT8 : keeps same_fp16 (config_setFlag kINT8).
Proof.
  intros s. unfold same_fp16, getFlag. cbn.
  symmetry. apply getFlag_setFlag_other. discriminate.
Qed.

Lemma keeps_calibrator_setFlag f : keeps same_calibrator (config_setFlag f).
Proof. intros s. reflexivity. Qed.

Lemma keeps_fp16_setMemoryPoolLimit size :
  keeps same_fp16 (config_setMemoryPoolLimit size).
Proof. intros s. reflexivity. Qed.

Lemma keeps_calibrator_setMemoryPoolLimit size :
  keeps same_calibrator (config_setMemoryPoolLimit size).
Proof. intros s. reflexivity. Qed.

Lemma keeps_fp16_addOptimizationProfile p :
  keeps same_fp16 (config_addOptimizationProfile p).
Proof. intros s. reflexivity. Qed.

Lemma keeps_calibrator_addOptimizationProfile p :
  keeps same_calibrator (config_addOptimizationProfile p).
Proof. intros s. reflexivity. Qed.

Lemma keeps_fp16_setCalibrationProfile p :
  keeps same_fp16 (config_setCalibrationProfile p).
Proof. intros s. reflexivity. Qed.

Lemma keeps_fp16_setInt8Calibrator calib :
  keeps same_fp16 (config_setInt8Calibrator calib).
Proof. intros s. reflexivity. Qed.

Lemma keeps_builder_profile_ops (R : relation BuildState) :
  (forall s s', builderConfig s = builderConfig s' -> R s s') ->
  keeps R builder_createOptimizationProfile /\
  (forall p name sel dims, keeps R (setDimensions p name sel dims)).
Proof. intros HR. split; intros; intros s; apply HR; reflexivity. Qed.

Lemma keeps_create_profile (R : relation BuildState) `{!PreOrder R}
    dynamic_batch_opts :
  (forall s s', builderConfig s = builderConfig s' -> R s s') ->
  (forall p, keeps R (config_addOptimizationProfile p)) ->
  keeps R (create_profile dynamic_batch_opts).
Proof.
  intros HR Hadd.
  destruct (keeps_builder_profile_ops R HR) as [Hcreate Hset].
  unfold create_profile, network_getInput, isValid.
  auto 20 with keeps.
Qed.

Lemma keeps_fp16_calibrate dynamic_batch_opts precision calibration_images
    model_name calibration_table inputDims profile :
  keeps same_fp16
    (calibrate dynamic_batch_opts precision calibration_images model_name
       calibration_table inputDims profile).
Proof.
  unfold calibrate. destruct (int8 precision); [| apply keeps_ret; apply _].
  pose proof keeps_fp16_setFlag_INT8.
  pose proof keeps_fp16_setCalibrationProfile.
  pose proof keeps_fp16_setInt8Calibrator.
  auto 10 with keeps.
Qed.

End KeepsFlags.

(** ** The builder configuration at the end of a build *)

Section BuilderAtEnd.
Context `{Collaborators}.
Variables (onnx_model : list Byte.byte) (onnx_size : nat).
Variables (bmin bopt bmax : Z) (precision : string).
Variables (score_thresh : float) (top_n : Z) (anchors : list (list float)).
Variables (rotated : bool) (nms_thresh : float) (detections_per_im : Z).
Variables (calibration_images : list string).
Variables (model_name calibration_table : string) (workspace_size : Z).
Variables (input : ITensor_ptr) (input_tensor : ITensor).

Let parsed := parser_parse onnx_model onnx_size.
Let inputDims := getDimensions input_tensor.
Let shape (batch : Z) : Dims :=
  [batch; d inputDims 1; d inputDims 2; d inputDims 3].
Let profile : IOptimizationProfile :=
  [ (getName input_tensor, kMAX, shape bmax);
    (getName input_tensor, kOPT, shape bopt);
    (getName input_tensor, kMIN, shape bmin) ].

Hypothesis input_0 : net_inputs parsed !! 0%nat = Some input.
Hypothesis input_exists : net_tensors parsed !! input = Some input_tensor.

Let final : BuildState :=
  snd (run (Engine_build onnx_model onnx_size [bmin; bopt; bmax] precision
              score_thresh top_n anchors rotated nms_thresh detections_per_im
              calibration_images model_name calibration_table workspace_size)
           fresh_build).

(** The state in which the plugin blocks start. *)
Lemma before_build_plugins :
  exists s,
    final =
      snd (run (build_plugins score_thresh top_n anchors rotated nms_thresh
                  detections_per_im inputDims;; build_engine) s) /\
    fst (run (Engine_build onnx_model onnx_size [bmin; bopt; bmax] precision
                score_thresh top_n anchors rotated nms_thresh
                detections_per_im calibration_images model_name
                calibration_table workspace_size) fresh_build) =
      fst (run (build_plugins score_thresh top_n anchors rotated nms_thresh
                  detections_per_im inputDims;; build_engine) s) /\
    network s = parsed /\
    events s =
      [cout (String.append "Building "
               (String.append precision " core model..."))] /\
    builder_profiles s = [profile] /\
    builderConfig s =
      {| cfg_flags :=
           (if int8 precision then [kINT8] else []) ++
           (if fp16 precision || int8 precision then [kFP16] else []);
         cfg_workspace := Some workspace_size;
         cfg_profiles := if profile_isValid profile then [0%nat] else [];
         cfg_calibration_profile :=
           if int8 precision then Some 0%nat else None;
         cfg_int8_calibrator :=
           if int8 precision then
             Some {| calib_stream :=
                       {| stream_batch := bopt;
                          stream_inputDims := inputDims;
                          stream_calibration_images := calibration_images |};
                     calib_model_name := model_name;
                     calib_calibration_table := calibration_table |}
           else None |}.
Proof.
  unfold final, Engine_build, create_builder, parse_onnx, create_profile,
    calibrate.
  unfold network_getInput, tensor, isValid, when.
  unfold builder_createOptimizationProfile, setDimensions,
    config_addOptimizationProfile, config_setFlag, config_setMemoryPoolLimit,
    config_setCalibrationProfile, config_setInt8Calibrator,
    profile_setDimensions, Dims4, fresh_build.
  destruct (fp16 precision), (int8 precision); run_simpl;
    fold parsed; rewrite input_0; run_simpl; rewrite input_exists; run_simpl;
    fold inputDims; fold (shape bmin) (shape bopt) (shape bmax); fold profile;
    destruct (profile_isValid profile); run_simpl;
    eexists; (split; [reflexivity |]); (split; [reflexivity |]);
    cbn; auto.
Qed.

Lemma builder_at_end :
  builder_profiles final = [profile] /\
  builderConfig final =
    {| cfg_flags :=
         (if int8 precision then [kINT8] else []) ++
         (if fp16 precision || int8 precision then [kFP16] else []);
       cfg_workspace := Some workspace_size;
       cfg_profiles := if profile_isValid profile then [0%nat] else [];
       cfg_calibration_profile :=
         if int8 precision then Some 0%nat else None;
       cfg_int8_calibrator :=
         if int8 precision then
           Some {| calib_stream :=
                     {| stream_batch := bopt;
                        stream_inputDims := inputDims;
                        stream_calibration_images := calibration_images |};
                   calib_model_name := model_name;
                   calib_calibration_table := calibration_table |}
         else None |}.
Proof.
  destruct before_build_plugins as (s & -> & _ & _ & _ & <- & <-).
  assert (Hkeep : keeps same_builder
            (build_plugins score_thresh top_n anchors rotated nms_thresh
               detections_per_im inputDims;; build_engine)).
  { keeps_seq; [apply keeps_build_plugins |].
    intros _. apply keeps_build_engine. }
  destruct (Hkeep s) as [Hc Hp]. split; congruence.
Qed.

(** C3.  For a batch triple [bmin <= bopt <= bmax], the profile of the build
    holds for the input the shapes [bmin; c; h; w], [bopt; c; h; w] and
    [bmax; c; h; w] as its minimum, optimum and maximum, where [c], [h] and
    [w] are dimensions 1, 2 and 3 of the parsed input; the three shapes are
    ordered componentwise; and the configuration holds the profile exactly
    when [isValid] accepts it. *)
Theorem profile_shapes_follow_batch_triple :
  bmin <= bopt <= bmax ->
  exists (p : IOptimizationProfile) (lo mid hi : Dims),
    builder_profiles final = [p] /\
    profile_getDimensions (getName input_tensor) kMIN p = Some lo /\
    profile_getDimensions (getName input_tensor) kOPT p = Some mid /\
    profile_getDimensions (getName input_tensor) kMAX p = Some hi /\
    lo = [bmin; d inputDims 1; d inputDims 2; d inputDims 3] /\
    mid = [bopt; d inputDims 1; d inputDims 2; d inputDims 3] /\
    hi = [bmax; d inputDims 1; d inputDims 2; d inputDims 3] /\
    Forall2 Z.le lo mid /\ Forall2 Z.le mid hi /\
    cfg_profiles (builderConfig final) =
      if profile_isValid p then [0%nat] else [].
Proof.
  intros [Hlo Hhi].
  destruct builder_at_end as [Hp Hc].
  exists profile, (shape bmin), (shape bopt), (shape bmax).
  split; [exact Hp |].
  assert (Hget : forall sel sel' dims rest,
            sel <> sel' ->
            profile_getDimensions (getName input_tensor) sel'
              ((getName input_tensor, sel, dims) :: rest) =
            profile_getDimensions (getName input_tensor) sel' rest).
  { intros sel sel' dims rest Hne. cbn [profile_getDimensions].
    rewrite bool_decide_eq_false_2; [reflexivity | tauto]. }
  assert (Hhit : forall sel dims rest,
            profile_getDimensions (getName input_tensor) sel
              ((getName input_tensor, sel, dims) :: rest) = Some dims).
  { intros sel dims rest. cbn [profile_getDimensions].
    rewrite bool_decide_eq_true_2; [reflexivity | tauto]. }
  unfold profile.
  split; [rewrite !Hget by discriminate; apply Hhit |].
  split; [rewrite Hget by discriminate; apply Hhit |].
  split; [apply Hhit |].
  repeat (split; [reflexivity |]).
  split; [| split].
  - unfold shape. repeat constructor; lia.
  - unfold shape. repeat constructor; lia.
  - rewrite Hc. reflexivity.
Qed.

End BuilderAtEnd.

(** ** Precision flags and calibration *)

Section Precision.
Context `{Collaborators}.
Variables (onnx_model : list Byte.byte) (onnx_size : nat).
Variables (dynamic_batch_opts : list Z) (precision : string).
Variables (score_thresh : float) (top_n : Z) (anchors : list (list float)).
Variables (rotated : bool) (nms_thresh : float) (detections_per_im : Z).
Variables (calibration_images : list string).
Variables (model_name calibration_table : string) (workspace_size : Z).

Let final : BuildState :=
  snd (run (Engine_build onnx_model onnx_size dynamic_batch_opts precision
              score_thresh top_n anchors rotated nms_thresh detections_per_im
              calibration_images model_name calibration_table workspace_size)
           fresh_build).

(** The blocks from "Building accelerated plugins..." on. *)
Lemma keeps_plugins_and_engine inputDims :
  keeps same_builder
    (build_plugins score_thresh top_n anchors rotated nms_thresh
       detections_per_im inputDims;; build_engine).
Proof.
  keeps_seq; [apply keeps_build_plugins |].
  intros _. apply keeps_build_engine.
Qed.

Lemma final_after_create_builder :
  exists (rest : M BuildState (option IHostMemory)),
    final = snd (run rest (snd (run (create_builder precision workspace_size)
                                    fresh_build))) /\
    keeps same_fp16 rest /\
    (int8 precision = false -> keeps same_calibrator rest).
Proof.
  eexists. split; [| split].
  - unfold final, Engine_build. rewrite run_bind.
    unfold create_builder, when.
    destruct (fp16 precision || int8 precision); reflexivity.
  - keeps_seq.
    { eapply keeps_weaken; [apply same_builder_fp16 | apply keeps_parse_onnx]. }
    intros _. keeps_seq.
    { apply keeps_create_profile; [apply _ | |].
      - intros s s' Hc. unfold same_fp16. rewrite Hc. reflexivity.
      - apply keeps_fp16_addOptimizationProfile. }
    intros [inputDims profile]. keeps_seq; [apply keeps_fp16_calibrate |].
    intros _. eapply keeps_weaken; [apply same_builder_fp16 |].
    apply keeps_plugins_and_engine.
  - intros Hint8. keeps_seq.
    { eapply keeps_weaken;
        [apply same_builder_calibrator | apply keeps_parse_onnx]. }
    intros _. keeps_seq.
    { apply keeps_create_profile; [apply _ | |].
      - intros s s' Hc. unfold same_calibrator. rewrite Hc. reflexivity.
      - apply keeps_calibrator_addOptimizationProfile. }
    intros [inputDims profile]. keeps_seq.
    { unfold calibrate. rewrite Hint8. apply keeps_ret. apply _. }
    intros _. eapply keeps_weaken; [apply same_builder_calibrator |].
    apply keeps_plugins_and_engine.
Qed.

(** C4.  At the end of every build, however it ends, the FP16 flag is set
    in the builder configuration if and only if the precision string is
    "FP16" or "INT8". *)
Theorem fp16_flag_iff_FP16_or_INT8 :
  getFlag kFP16 (builderConfig final) = true <->
  precision = "FP16" \/ precision = "INT8".
Proof.
  destruct final_after_create_builder as (rest & -> & Hkeep & _).
  rewrite <- (Hkeep _).
  rewrite <- !String.eqb_eq. fold (fp16 precision) (int8 precision).
  unfold create_builder, when.
  destruct (fp16 precision), (int8 precision); cbn; intuition congruence.
Qed.

(** C5.  A build with precision "INT8" sets the INT8 flag, names as
    calibration profile the very profile it created for the input (the only
    one the configuration can hold), and hands the configuration a
    calibrator whose image stream has the optimum batch size,
    [dynamic_batch_opts[1]], the input shape and the calibration images.  A
    build with any other precision ends without a calibrator, however it
    ends. *)
Theorem calibrator_iff_INT8 :
  (precision <> "INT8" ->
     cfg_int8_calibrator (builderConfig final) = None) /\
  (precision = "INT8" ->
   forall (bmin bopt bmax : Z) (input : ITensor_ptr) (input_tensor : ITensor),
     dynamic_batch_opts = [bmin; bopt; bmax] ->
     net_inputs (parser_parse onnx_model onnx_size) !! 0%nat = Some input ->
     net_tensors (parser_parse onnx_model onnx_size) !! input =
       Some input_tensor ->
     getFlag kINT8 (builderConfig final) = true /\
     (exists p : IOptimizationProfile_ptr,
        cfg_calibration_profile (builderConfig final) = Some p /\
        is_Some (builder_profiles final !! p) /\
        forall q, q ∈ cfg_profiles (builderConfig final) -> q = p) /\
     cfg_int8_calibrator (builderConfig final) =
       Some {| calib_stream :=
                 {| stream_batch := bopt;
                    stream_inputDims := getDimensions input_tensor;
                    stream_calibration_images := calibration_images |};
               calib_model_name := model_name;
               calib_calibration_table := calibration_table |}).
Proof.
  split.
  - intros Hne.
    assert (Hint8 : int8 precision = false).
    { unfold int8. apply not_true_is_false. rewrite String.eqb_eq. exact Hne. }
    destruct final_after_create_builder as (rest & -> & _ & Hkeep).
    rewrite <- (Hkeep Hint8 _).
    unfold create_builder, when.
    destruct (fp16 precision || int8 precision); reflexivity.
  - intros Hint8 bmin bopt bmax input input_tensor Hopts Hin Hten.
    assert (Hb : int8 precision = true).
    { unfold int8. rewrite String.eqb_eq. exact Hint8. }
    unfold final. rewrite Hopts.
    destruct (builder_at_end onnx_model onnx_size bmin bopt bmax precision
                score_thresh top_n anchors rotated nms_thresh
                detections_per_im calibration_images model_name
                calibration_table workspace_size input input_tensor Hin Hten)
      as [Hp Hc].
    rewrite Hp, Hc, Hb. cbn [cfg_flags cfg_calibration_profile cfg_profiles
                             cfg_int8_calibrator getFlag].
    split; [reflexivity |]. split; [| reflexivity].
    exists 0%nat. split; [reflexivity |]. split; [eexists; reflexivity |].
    intros q Hq. destruct (profile_isValid _).
    + apply list_elem_of_singleton in Hq. exact Hq.
    + apply elem_of_nil in Hq. contradiction.
Qed.

End Precision.

(** ** The network operations on well-formed arguments *)

Lemma filter_head_NoDup (t : ITensor_ptr) (l : list ITensor_ptr) :
  NoDup (t :: l) -> filter (fun o => o <> t) (t :: l) = l.
Proof.
  intros Hnd. apply NoDup_cons in Hnd as [Hnotin _].
  rewrite filter_cons_False by tauto.
  induction l as [| x l IH]; [reflexivity |].
  apply not_elem_of_cons in Hnotin as [Hne Hnotin].
  rewrite filter_cons_True by congruence.
  f_equal. apply IH, Hnotin.
Qed.

Lemma tensor_dims_Some (n : INetworkDefinition) (ptrs : list ITensor_ptr) :
  Forall (fun t => t < length (net_tensors n))%nat ptrs ->
  exists dims, tensor_dims n (map Some ptrs) = Some dims.
Proof.
  intros Hall.
  assert (Hsome : is_Some (tensor_dims n (map Some ptrs))).
  { apply mapM_is_Some_2, Forall_map.
    eapply Forall_impl; [exact Hall |].
    intros t Ht. apply lookup_lt_is_Some_2 in Ht as [ten Hten].
    cbn. rewrite Hten. eexists. reflexivity. }
  destruct Hsome as [dims Hdims]. exists dims. exact Hdims.
Qed.

Lemma omap_id_Some (ptrs : list ITensor_ptr) :
  omap id (map Some ptrs) = ptrs.
Proof.
  induction ptrs as [| t ptrs IH]; [reflexivity |].
  cbn. f_equal. exact IH.
Qed.

Section NetworkOperations.
Context `{Collaborators}.

Lemma net_addPluginV2_Some (n : INetworkDefinition)
    (ptrs : list ITensor_ptr) (plugin : IPluginV2) :
  Forall (fun t => t < length (net_tensors n))%nat ptrs ->
  exists new,
    length new = 3%nat /\
    net_addPluginV2 (map Some ptrs) plugin n =
      (Some (PluginV2Layer ptrs plugin (seq (length (net_tensors n)) 3)),
       {| net_tensors := net_tensors n ++ new;
          net_inputs := net_inputs n;
          net_outputs := net_outputs n;
          net_layers :=
            net_layers n ++
            [PluginV2Layer ptrs plugin (seq (length (net_tensors n)) 3)] |}).
Proof.
  intros Hall. destruct (tensor_dims_Some n ptrs Hall) as [dims Hdims].
  exists (map (fun k => unnamed (plugin_getOutputDimensions plugin k dims))
            (seq 0 3)).
  split; [reflexivity |].
  unfold net_addPluginV2. rewrite Hdims, omap_id_Some. reflexivity.
Qed.

Lemma net_addConcatenation_Some (n : INetworkDefinition)
    (ptrs : list ITensor_ptr) :
  ptrs <> [] ->
  Forall (fun t => t < length (net_tensors n))%nat ptrs ->
  exists new,
    net_addConcatenation (map Some ptrs) n =
      (Some (ConcatenationLayer ptrs (length (net_tensors n))),
       {| net_tensors := net_tensors n ++ [new];
          net_inputs := net_inputs n;
          net_outputs := net_outputs n;
          net_layers :=
            net_layers n ++
            [ConcatenationLayer ptrs (length (net_tensors n))] |}).
Proof.
  intros Hne Hall. destruct (tensor_dims_Some n ptrs Hall) as [dims Hdims].
  exists (unnamed (concatenation_dims dims)).
  unfold net_addConcatenation. rewrite omap_id_Some.
  destruct ptrs as [| t ptrs]; [contradiction |].
  cbn [map]. cbn [map] in Hdims. rewrite Hdims. reflexivity.
Qed.

End NetworkOperations.

(** ** The plugin blocks on a well-formed network *)

Section PluginBlocks.
Context `{Collaborators}.
Variables (score_thresh : float) (top_n : Z) (anchors : list (list float)).
Variables (rotated : bool) (nms_thresh : float) (detections_per_im : Z).
Variable inputDims : Dims.
Variable s0 : BuildState.

Let N := network s0.
Let outs := net_outputs N.
Let scales := (length outs / 2)%nat.
Let T := length (net_tensors N).

Hypothesis wf : well_formed N = true.
Hypothesis enough_anchors : (scales <= length anchors)%nat.

(** The state whose network extends the parsed one by tensors [extraT]
    and layers [extraL], with outputs [outputs], after events [ev]. *)
Let state (extraT : list ITensor) (outputs : list ITensor_ptr)
    (extraL : list ILayer) (ev : list Event) : BuildState :=
  {| network :=
       {| net_tensors := net_tensors N ++ extraT;
          net_inputs := net_inputs N;
          net_outputs := outputs;
          net_layers := net_layers N ++ extraL |};
     builderConfig := builderConfig s0;
     builder_profiles := builder_profiles s0;
     events := ev |}.

Lemma wf_NoDup : NoDup outs.
Proof.
  unfold well_formed in wf. apply andb_prop in wf as [Hw _].
  apply andb_prop in Hw as [Hw _]. apply bool_decide_eq_true in Hw. exact Hw.
Qed.

Lemma wf_outputs_exist t : t ∈ outs -> (t < T)%nat.
Proof.
  intros Hin. unfold well_formed in wf. apply andb_prop in wf as [Hw _].
  apply andb_prop in Hw as [_ Hw].
  rewrite forallb_forall in Hw. apply list_elem_of_In in Hin.
  apply Hw in Hin. apply bool_decide_eq_true in Hin. exact Hin.
Qed.

Lemma wf_class_map i :
  (i < scales)%nat ->
  exists c ten,
    outs !! i = Some c /\ net_tensors N !! c = Some ten /\
    d (getDimensions ten) 2 <> 0.
Proof.
  intros Hi. unfold well_formed in wf. apply andb_prop in wf as [_ Hw].
  rewrite forallb_forall in Hw.
  specialize (Hw i). rewrite in_seq in Hw.
  assert (Hh : match class_map_height N i with
               | Some h => negb (h =? 0)
               | None => false
               end = true) by (apply Hw; fold outs scales; lia).
  unfold class_map_height in Hh. fold outs in Hh.
  destruct (outs !! i) as [c |] eqn:Hc; [| discriminate]. cbn in Hh.
  destruct (net_tensors N !! c) as [ten |] eqn:Hten; [| discriminate].
  cbn in Hh.
  exists c, ten. split; [reflexivity |]. split; [exact Hten |].
  apply negb_true_iff, Z.eqb_neq in Hh. exact Hh.
Qed.

Lemma wf_box_output i :
  (i < scales)%nat -> exists b, outs !! (length outs / 2 + i)%nat = Some b.
Proof.
  intros Hi. apply lookup_lt_is_Some_2.
  pose proof (Nat.Div0.mul_div_le (length outs) 2) as Hdiv.
  unfold scales in Hi. lia.
Qed.

(** After [k] rounds of the decode loop. *)
Let decoded (k : nat) (acc : Collected) (s : BuildState) : Prop :=
  exists extraT L,
    s = state extraT outs L (events s0) /\
    length extraT = (3 * k)%nat /\
    length L = k /\
    (forall j l, L !! j = Some l ->
       decode_layer N inputDims score_thresh top_n anchors rotated j l) /\
    acc =
      (map (fun j => Some (T + 3 * j)%nat) (seq 0 k),
       map (fun j => Some (T + 3 * j + 1)%nat) (seq 0 k),
       map (fun j => Some (T + 3 * j + 2)%nat) (seq 0 k)).

Lemma decode_round k acc s :
  (k < scales)%nat ->
  decoded k acc s ->
  returns (decode_body score_thresh top_n anchors rotated inputDims
             (length outs) k acc) s (decoded (S k)).
Proof.
  intros Hk (extraT & L & -> & HextraT & HL & Hlayers & ->).
  destruct (wf_class_map k Hk) as (c & ten & Hc & Hten & Hheight).
  destruct (wf_box_output k Hk) as (b & Hb).
  assert (Hcb : Forall (fun t => t < length (net_tensors N ++ extraT))%nat
                  [c; b]).
  { rewrite length_app. fold T.
    repeat constructor.
    - pose proof (wf_outputs_exist c (list_elem_of_lookup_2 _ _ _ Hc)). lia.
    - pose proof (wf_outputs_exist b (list_elem_of_lookup_2 _ _ _ Hb)). lia. }
  destruct (lookup_lt_is_Some_2 anchors k ltac:(lia)) as [a Ha].
  unfold decode_body, network_getOutput, tensor.
  apply returns_bind, returns_gets. cbn [state network net_outputs].
  rewrite Hc.
  apply returns_bind, returns_gets. cbn [state network net_outputs].
  rewrite Hb.
  apply returns_bind, returns_bind.
  eapply returns_deref; [reflexivity |].
  apply returns_bind, returns_gets. cbn [state network net_tensors].
  rewrite lookup_app_l by (apply lookup_lt_Some in Hten; exact Hten).
  rewrite Hten.
  eapply returns_deref; [reflexivity |].
  apply returns_bind, returns_int_div; [exact Hheight |].
  apply returns_bind. eapply returns_index; [exact Ha |].
  apply returns_bind.
  set (plugin := if negb rotated then _ else _).
  destruct (net_addPluginV2_Some (network (state extraT outs L (events s0)))
              [c; b] plugin Hcb) as (new & Hnew & Hadd).
  exists (Some (PluginV2Layer [c; b] plugin
                  (seq (length (net_tensors N ++ extraT)) 3))).
  eexists. split.
  { unfold run, network_addPluginV2. cbn [state network].
    cbn [map state network] in Hadd. rewrite Hadd. reflexivity. }
  apply returns_bind. eapply returns_deref; [reflexivity |].
  apply returns_ret.
  exists (extraT ++ new), (L ++ [PluginV2Layer [c; b] plugin
                                   (seq (length (net_tensors N ++ extraT)) 3)]).
  split.
  { unfold state, on_network. cbn. rewrite <- !app_assoc. reflexivity. }
  split; [rewrite length_app; lia |].
  split; [rewrite length_app; cbn; lia |].
  split.
  - intros j l Hj.
    destruct (decide (j < length L)%nat) as [Hlt | Hge].
    + rewrite lookup_app_l in Hj by exact Hlt. apply Hlayers, Hj.
    + rewrite lookup_app_r in Hj by lia.
      destruct (j - length L)%nat as [| j'] eqn:Hj'; [| discriminate].
      assert (j = k) as -> by lia.
      injection Hj as <-.
      exists c, b, ten, a. eexists.
      repeat (split; [eassumption |]).
      subst plugin. destruct rotated; reflexivity.
  - rewrite !seq_S, !map_app. cbn [map layer_getOutput layer_outputs seq].
    rewrite length_app, HextraT. fold T.
    cbn [lookup list_lookup]. cbn.
    rewrite (Nat.add_0_r (T + _)). reflexivity.
Qed.

Lemma state_start : s0 = state [] outs [] (events s0).
Proof.
  unfold state, outs, N. destruct s0 as [[tensors inputs outputs layers] c p e].
  cbn. rewrite !app_nil_r. reflexivity.
Qed.

Lemma decode_loop :
  returns (add_decode_plugins score_thresh top_n anchors rotated inputDims
             (length outs)) s0 (decoded scales).
Proof.
  unfold add_decode_plugins. fold scales.
  change scales with (0 + scales)%nat at 2.
  apply (returns_for_range decoded).
  - intros i acc s Hi. apply decode_round. lia.
  - exists [], []. split; [apply state_start |].
    split; [reflexivity |]. split; [reflexivity |].
    split; [| reflexivity]. intros j l Hj. discriminate.
Qed.

(** Cleanup: each round unmarks the first output that is left. *)
Lemma cleanup_loop extraT L ev :
  returns (cleanup_outputs (length outs)) (state extraT outs L ev)
    (fun _ s => s = state extraT [] L (ev ++ map unmarkOutput outs)).
Proof.
  unfold cleanup_outputs.
  pose (I := fun (i : nat) (_ : unit) (s : BuildState) =>
               s = state extraT (drop i outs) L
                     (ev ++ map unmarkOutput (take i outs))).
  eapply returns_mono.
  - apply (returns_for_range I _ (length outs) 0%nat).
    + intros i [] s Hi ->.
      destruct (lookup_lt_is_Some_2 outs i ltac:(lia)) as [c Hc].
      unfold network_getOutput, network_unmarkOutput.
      apply returns_bind, returns_gets. cbn [state network net_outputs].
      rewrite lookup_drop, Nat.add_0_r, Hc.
      apply returns_bind. eapply returns_deref; [reflexivity |].
      apply returns_bind. unfold emit. apply returns_modify.
      apply returns_modify.
      unfold I, state, on_network, net_unmarkOutput. cbn.
      rewrite (drop_S _ _ _ Hc), (take_S_r _ _ _ Hc).
      rewrite filter_head_NoDup.
      2: { rewrite <- (drop_S _ _ _ Hc).
           eapply sublist_NoDup; [apply wf_NoDup | apply sublist_drop]. }
      rewrite map_app, app_assoc. reflexivity.
    + unfold I. rewrite drop_0, take_0. cbn. rewrite app_nil_r. reflexivity.
  - intros [] s ->. cbn. rewrite drop_all, firstn_all. reflexivity.
Qed.

(** One concatenation. *)
Lemma concat_round extraT outputs L ev ptrs concat :
  ptrs <> [] ->
  Forall (fun t => t < T + length extraT)%nat ptrs ->
  returns (concat_body (map Some ptrs) concat) (state extraT outputs L ev)
    (fun r s =>
       exists new,
         r = concat ++ [Some (T + length extraT)%nat] /\
         s = state (extraT ++ [new]) outputs
               (L ++ [ConcatenationLayer ptrs (T + length extraT)]) ev).
Proof.
  intros Hne Hall.
  assert (Hall' : Forall (fun t =>
                     t < length (net_tensors
                                   (network (state extraT outputs L ev))))%nat
                    ptrs).
  { cbn [state network net_tensors]. rewrite length_app. exact Hall. }
  destruct (net_addConcatenation_Some _ ptrs Hne Hall') as (new & Hadd).
  unfold concat_body. apply returns_bind.
  eexists _, _. split.
  { unfold run, network_addConcatenation. rewrite Hadd. reflexivity. }
  apply returns_bind. eapply returns_deref; [reflexivity |].
  apply returns_ret. exists new.
  cbn [layer_getOutput layer_outputs lookup list_lookup state network
       net_tensors].
  rewrite length_app. fold T. split; [reflexivity |].
  unfold state, on_network. cbn. rewrite <- !app_assoc. reflexivity.
Qed.

(** One round of the marking loop. *)
Lemma mark_round layer extraT outputs L ev i p name :
  layer_getOutput layer i = Some p ->
  names !! i = Some name ->
  p ∉ outputs ->
  (T <= p)%nat ->
  returns (mark_body layer i tt) (state extraT outputs L ev)
    (fun _ s =>
       s = state (alter (fun ten => {| getName := name;
                                       getDimensions := getDimensions ten |})
                        (p - T)%nat extraT)
                 (outputs ++ [p]) L (ev ++ [markOutput p])).
Proof.
  intros Hp Hname Hnotin HT.
  unfold mark_body, network_markOutput, tensor_setName. rewrite Hp.
  apply returns_bind, returns_bind.
  eapply returns_deref; [reflexivity |].
  apply returns_bind. unfold emit. apply returns_modify.
  apply returns_modify.
  apply returns_bind. eapply returns_index; [exact Hname |].
  apply returns_bind. eapply returns_deref; [reflexivity |].
  apply returns_modify.
  unfold state, on_network, net_markOutput, net_setName. cbn.
  rewrite bool_decide_eq_false_2 by exact Hnotin.
  rewrite alter_app_r_alt by (fold T; exact HT). reflexivity.
Qed.

(** The NMS plugin and the marking of its three outputs. *)
Lemma nms_block extraT L ev ptrs :
  Forall (fun t => t < T + length extraT)%nat ptrs ->
  let P := (T + length extraT)%nat in
  returns (add_nms_plugin rotated nms_thresh detections_per_im
             (map Some ptrs)) (state extraT [] L ev)
    (fun _ s =>
       exists t0 t1 t2 layer,
         s = state (extraT ++ [t0; t1; t2]) [P; S P; S (S P)] (L ++ [layer])
               (ev ++ map markOutput [P; S P; S (S P)]) /\
         getName t0 = "scores" /\ getName t1 = "boxes" /\
         getName t2 = "classes").
Proof.
  intros Hall P.
  assert (Hall' : Forall (fun t =>
                     t < length (net_tensors
                                   (network (state extraT [] L ev))))%nat
                    ptrs).
  { cbn [state network net_tensors]. rewrite length_app. exact Hall. }
  set (plugin := if negb rotated
                 then NMSPlugin nms_thresh detections_per_im
                 else NMSRotatePlugin nms_thresh detections_per_im).
  destruct (net_addPluginV2_Some _ ptrs plugin Hall')
    as (new & Hnew & Hadd).
  destruct new as [| t0 [| t1 [| t2 [| t3 new]]]]; try discriminate Hnew.
  cbn [state network net_tensors] in Hadd. rewrite length_app in Hadd.
  fold T P in Hadd. cbn [seq] in Hadd.
  unfold add_nms_plugin. fold plugin. apply returns_bind.
  eexists _, _. split.
  { unfold run, network_addPluginV2. cbn [state network].
    rewrite Hadd. reflexivity. }
  apply returns_bind. eapply returns_deref; [reflexivity |].
  match goal with
  | |- returns _ ?s _ =>
      replace s
        with (state (extraT ++ [t0; t1; t2]) []
                (L ++ [PluginV2Layer ptrs plugin [P; S P; S (S P)]]) ev)
        by (unfold state, on_network; cbn; rewrite <- !app_assoc;
            reflexivity)
  end.
  cbn [layer_getNbOutputs layer_outputs length for_range].
  apply returns_bind.
  eapply returns_mono.
  { apply (mark_round _ _ _ _ _ 0%nat P "scores");
      [reflexivity | reflexivity | apply not_elem_of_nil | unfold P; lia]. }
  intros [] s ->. apply returns_bind.
  eapply returns_mono.
  { apply (mark_round _ _ _ _ _ 1%nat (S P) "boxes");
      [reflexivity | reflexivity | | unfold P; lia].
    cbn. rewrite list_elem_of_singleton. lia. }
  intros [] s ->. apply returns_bind.
  eapply returns_mono.
  { apply (mark_round _ _ _ _ _ 2%nat (S (S P)) "classes");
      [reflexivity | reflexivity | | unfold P; lia].
    cbn. rewrite !elem_of_cons, elem_of_nil. lia. }
  intros [] s ->. apply returns_ret.
  replace (P - T)%nat with (length extraT + 0)%nat by (unfold P; lia).
  replace (S P - T)%nat with (length extraT + 1)%nat by (unfold P; lia).
  replace (S (S P) - T)%nat with (length extraT + 2)%nat by (unfold P; lia).
  rewrite !alter_app_r. cbn [alter list_alter].
  eexists _, _, _, _. split; [| split; [| split]].
  - cbn. rewrite <- !app_assoc. reflexivity.
  - reflexivity.
  - reflexivity.
  - reflexivity.
Qed.

Lemma lookup_app_add {A : Type} (l1 l2 : list A) (i : nat) :
  (l1 ++ l2) !! (length l1 + i)%nat = l2 !! i.
Proof. rewrite lookup_app_r by lia. f_equal. lia. Qed.

(** The plugin blocks after the line on standard output. *)
Lemma plugins_after_banner :
  (1 <= scales)%nat ->
  returns
    (nbOutputs ← network_getNbOutputs;
     collected ← add_decode_plugins score_thresh top_n anchors rotated
                   inputDims nbOutputs;
     cleanup_outputs nbOutputs;;
     concat ← concat_tensors collected;
     add_nms_plugin rotated nms_thresh detections_per_im concat)
    s0
    (fun _ s => rewritten inputDims score_thresh top_n anchors rotated s0 s).
Proof.
  intros Hscales.
  apply returns_bind, returns_gets. fold N outs.
  apply returns_bind. eapply returns_mono; [apply decode_loop |].
  intros acc s (extraT & L & -> & HextraT & HL & Hlayers & ->). cbv beta.
  apply returns_bind. eapply returns_mono; [apply cleanup_loop |].
  intros [] s ->. cbv beta.
  assert (Hptrs : forall c, (c < 3)%nat ->
            map (fun j => T + 3 * j + c)%nat (seq 0 scales) <> [] /\
            forall more,
              Forall (fun t => t < T + length (extraT ++ more))%nat
                (map (fun j => T + 3 * j + c)%nat (seq 0 scales))).
  { intros c Hc. split.
    - destruct scales; [lia | discriminate].
    - intros more. apply Forall_map, Forall_forall. intros j Hj.
      apply elem_of_seq in Hj. rewrite length_app. lia. }
  apply returns_bind. unfold concat_tensors.
  replace (map (fun j => Some (T + 3 * j)%nat) (seq 0 scales))
    with (map Some (map (fun j => T + 3 * j + 0)%nat (seq 0 scales))).
  2: { rewrite map_map. apply map_ext. intros j. f_equal. lia. }
  replace (map (fun j => Some (T + 3 * j + 1)%nat) (seq 0 scales))
    with (map Some (map (fun j => T + 3 * j + 1)%nat (seq 0 scales)))
    by apply map_map.
  replace (map (fun j => Some (T + 3 * j + 2)%nat) (seq 0 scales))
    with (map Some (map (fun j => T + 3 * j + 2)%nat (seq 0 scales)))
    by apply map_map.
  apply returns_bind. eapply returns_mono.
  { apply concat_round; [apply (Hptrs 0%nat); lia |].
    rewrite <- (app_nil_r extraT). apply (Hptrs 0%nat). lia. }
  intros r1 s1 (n1 & -> & ->). cbv beta. apply returns_bind.
  eapply returns_mono.
  { apply concat_round; [apply (Hptrs 1%nat); lia |].
    apply (Hptrs 1%nat). lia. }
  intros r2 s2 (n2 & -> & ->). cbv beta.
  eapply returns_mono.
  { apply concat_round; [apply (Hptrs 2%nat); lia |].
    rewrite <- app_assoc. apply (Hptrs 2%nat). lia. }
  intros r3 s3 (n3 & -> & ->). cbv beta.
  set (extraT3 := ((extraT ++ [n1]) ++ [n2]) ++ [n3]).
  set (L3 := ((L ++ _) ++ _) ++ _).
  eapply returns_mono.
  { apply (nms_block extraT3 L3 _
             [(T + length extraT)%nat; (T + length (extraT ++ [n1]))%nat;
              (T + length ((extraT ++ [n1]) ++ [n2]))%nat]).
    unfold extraT3. rewrite !length_app. cbn [length].
    repeat constructor; lia. }
  intros [] s (t0 & t1 & t2 & layer & -> & Hn0 & Hn1 & Hn2). cbv beta.
  set (P := (T + length extraT3)%nat).
  unfold rewritten.
  cbn [state builderConfig builder_profiles events network net_outputs
       net_layers net_tensors].
  fold N outs.
  split; [reflexivity |]. split; [reflexivity |].
  split; [rewrite <- app_assoc; reflexivity |].
  split; [| split].
  - unfold output_names. cbn [state network net_outputs net_tensors map].
    change (S P) with (1 + P)%nat. change (S (1 + P)) with (2 + P)%nat.
    unfold P, T.
    replace (length (net_tensors N) + length extraT3)%nat
      with (length (net_tensors N) + (length extraT3 + 0))%nat by lia.
    replace (1 + (length (net_tensors N) + (length extraT3 + 0)))%nat
      with (length (net_tensors N) + (length extraT3 + 1))%nat by lia.
    replace (2 + (length (net_tensors N) + (length extraT3 + 0)))%nat
      with (length (net_tensors N) + (length extraT3 + 2))%nat by lia.
    rewrite !lookup_app_add. cbn. rewrite Hn0, Hn1, Hn2. reflexivity.
  - intros t Ht. apply wf_outputs_exist in Ht.
    rewrite !elem_of_cons, elem_of_nil. unfold P. lia.
  - intros i Hi. fold scales in Hi.
    rewrite lookup_app_add.
    unfold L3. rewrite <- !app_assoc.
    rewrite lookup_app_l by lia.
    destruct (lookup_lt_is_Some_2 L i ltac:(lia)) as [l Hl].
    exists l. split; [exact Hl |]. apply Hlayers, Hl.
Qed.

End PluginBlocks.

(** ** A whole build on a well-formed network *)

Section WholeBuild.
Context `{Collaborators}.
Variables (onnx_model : list Byte.byte) (onnx_size : nat).
Variables (bmin bopt bmax : Z) (precision : string).
Variables (score_thresh : float) (top_n : Z) (anchors : list (list float)).
Variables (rotated : bool) (nms_thresh : float) (detections_per_im : Z).
Variables (calibration_images : list string).
Variables (model_name calibration_table : string) (workspace_size : Z).
Variables (input : ITensor_ptr) (input_tensor : ITensor).

Let parsed := parser_parse onnx_model onnx_size.
Let scales := (length (net_outputs parsed) / 2)%nat.
Let inputDims := getDimensions input_tensor.

Hypothesis input_0 : net_inputs parsed !! 0%nat = Some input.
Hypothesis input_exists : net_tensors parsed !! input = Some input_tensor.
Hypothesis wf : well_formed parsed = true.
Hypothesis some_scale : (1 <= scales)%nat.
Hypothesis enough_anchors : (scales <= length anchors)%nat.

Let banner : list Event :=
  [cout (String.append "Building "
           (String.append precision " core model..."));
   cout "Building accelerated plugins..."].

Let closing : list Event :=
  [cout "Applying optimizations and building TRT CUDA engine...";
   buildSerializedNetwork].

(** The build ends normally, with the plan the compiler returns for the
    rewritten network. *)
Lemma Engine_build_run :
  exists s,
    run (Engine_build onnx_model onnx_size [bmin; bopt; bmax] precision
           score_thresh top_n anchors rotated nms_thresh detections_per_im
           calibration_images model_name calibration_table workspace_size)
        fresh_build =
      (Normal (builder_buildSerializedNetwork (network s) (builderConfig s)
                 (builder_profiles s)), s) /\
    events s =
      banner ++ map unmarkOutput (net_outputs parsed) ++
      map markOutput (net_outputs (network s)) ++ closing /\
    output_names (network s) =
      [Some "scores"; Some "boxes"; Some "classes"] /\
    (forall t, t ∈ net_outputs parsed -> t ∉ net_outputs (network s)) /\
    (forall i, (i < scales)%nat ->
       exists layer,
         net_layers (network s) !! (length (net_layers parsed) + i)%nat =
           Some layer /\
         decode_layer parsed inputDims score_thresh top_n anchors rotated
           i layer).
Proof.
  destruct (before_build_plugins onnx_model onnx_size bmin bopt bmax
              precision score_thresh top_n anchors rotated nms_thresh
              detections_per_im calibration_images model_name
              calibration_table workspace_size input input_tensor
              input_0 input_exists)
    as (s1 & Hsnd & Hfst & Hnet & Hev & _ & _).
  fold parsed in Hnet. fold inputDims in Hsnd, Hfst.
  set (s2 := {| network := network s1; builderConfig := builderConfig s1;
                builder_profiles := builder_profiles s1;
                events := events s1 ++ [cout "Building accelerated plugins..."]
             |}).
  assert (Hplugins :
    returns (build_plugins score_thresh top_n anchors rotated nms_thresh
               detections_per_im inputDims) s1
      (fun _ s => rewritten inputDims score_thresh top_n anchors rotated
                    s2 s)).
  { unfold build_plugins. apply returns_bind. unfold emit.
    apply returns_modify. fold s2.
    apply plugins_after_banner; cbn [s2 network]; rewrite Hnet;
      assumption. }
  destruct Hplugins as ([] & s3 & Hrun & Hc & Hp & Hev3 & Hnames & Hleft & Hlay).
  cbn [s2 network events] in Hev3, Hleft, Hlay. rewrite Hnet in *.
  set (s4 := {| network := network s3; builderConfig := builderConfig s3;
                builder_profiles := builder_profiles s3;
                events := events s3 ++ closing |}).
  assert (Hend :
    run (build_plugins score_thresh top_n anchors rotated nms_thresh
           detections_per_im inputDims;; build_engine) s1 =
      (Normal (builder_buildSerializedNetwork (network s4) (builderConfig s4)
                 (builder_profiles s4)), s4)).
  { rewrite run_bind, Hrun. unfold build_engine, closing. run_simpl.
    unfold s4, closing. rewrite <- app_assoc. reflexivity. }
  exists s4. split.
  { rewrite Hend in Hsnd, Hfst. cbn [fst snd] in Hsnd, Hfst.
    destruct (run _ fresh_build) as [o s]. cbn [fst snd] in Hsnd, Hfst.
    congruence. }
  cbn [s4 network events].
  split; [rewrite Hev3, Hev; unfold banner; cbn [app];
          rewrite <- !app_assoc; reflexivity |].
  split; [exact Hnames |]. split; [exact Hleft |]. exact Hlay.
Qed.

(** C6.  In the network the build ends with, the layer added for scale
    [i < S] is a plugin layer whose inputs are output [i] and output
    [S + i] of the parsed network, in this order; its plugin is the rotated
    decode variant exactly when [rotated] is set, and carries
    [score_thresh], [top_n], [anchors[i]] and, as scale factor, the
    truncating quotient of dimension 2 of the input by dimension 2 of the
    class map. *)
Theorem decode_pairs_class_and_box_maps (i : nat) :
  (i < scales)%nat ->
  exists (s : BuildState) (classOutput boxOutput : ITensor_ptr)
         (class_map : ITensor) (anchors_i : list float)
         (outs : list ITensor_ptr),
    s = snd (run (Engine_build onnx_model onnx_size [bmin; bopt; bmax]
                    precision score_thresh top_n anchors rotated nms_thresh
                    detections_per_im calibration_images model_name
                    calibration_table workspace_size) fresh_build) /\
    net_outputs parsed !! i = Some classOutput /\
    net_outputs parsed !! (scales + i)%nat = Some boxOutput /\
    net_tensors parsed !! classOutput = Some class_map /\
    anchors !! i = Some anchors_i /\
    net_layers (network s) !! (length (net_layers parsed) + i)%nat =
      Some (PluginV2Layer [classOutput; boxOutput]
              ((if rotated then DecodeRotatePlugin else DecodePlugin)
                 score_thresh top_n anchors_i
                 (Z.quot (d (getDimensions input_tensor) 2)
                         (d (getDimensions class_map) 2)))
              outs).
Proof.
  intros Hi.
  destruct Engine_build_run as (s & Hrun & _ & _ & _ & Hlayers).
  destruct (Hlayers i Hi)
    as (layer & Hlayer & c & b & ten & a & outs & Hc & Hb & Hten & Ha & ->).
  exists s, c, b, ten, a, outs.
  rewrite Hrun. cbn [snd].
  repeat (split; [first [reflexivity | assumption] |]).
  exact Hlayer.
Qed.

End WholeBuild.

Lemma filter_marking_unmark (l : list nat) :
  List.filter is_marking (map unmarkOutput l) = map unmarkOutput l.
Proof. induction l as [| t l IH]; [reflexivity |]. cbn. f_equal. exact IH. Qed.

Lemma filter_marking_mark (l : list nat) :
  List.filter is_marking (map markOutput l) = map markOutput l.
Proof. induction l as [| t l IH]; [reflexivity |]. cbn. f_equal. exact IH. Qed.

(** ** The outputs after the rewrite *)

Section OutputsReplaced.
Context `{Collaborators}.
Variables (onnx_model : list Byte.byte) (onnx_size : nat).
Variables (bmin bopt bmax : Z) (precision : string).
Variables (score_thresh : float) (top_n : Z) (anchors : list (list float)).
Variables (rotated : bool) (nms_thresh : float) (detections_per_im : Z).
Variables (calibration_images : list string).
Variables (model_name calibration_table : string) (workspace_size : Z).
Variables (input : ITensor_ptr) (input_tensor : ITensor).
Variable scales : nat.

Let parsed := parser_parse onnx_model onnx_size.

Hypothesis input_0 : net_inputs parsed !! 0%nat = Some input.
Hypothesis input_exists : net_tensors parsed !! input = Some input_tensor.
Hypothesis wf : well_formed parsed = true.
Hypothesis some_scale : (1 <= scales)%nat.
Hypothesis two_per_scale : length (net_outputs parsed) = (2 * scales)%nat.

Let result :=
  run (Engine_build onnx_model onnx_size [bmin; bopt; bmax] precision
         score_thresh top_n anchors rotated nms_thresh detections_per_im
         calibration_images model_name calibration_table workspace_size)
      fresh_build.

Lemma scales_is_half : (length (net_outputs parsed) / 2)%nat = scales.
Proof. rewrite two_per_scale, Nat.mul_comm. apply Nat.div_mul. lia. Qed.

(** C1.  With [S >= 1] scales, [2 S] outputs and [S] anchor lists, the build
    ends normally; the changes of the output marking it has made are the
    unmarking of each original output, in order, followed only then by the
    marking of the final outputs; the final outputs are exactly three, named
    "scores", "boxes", "classes" in this order; and no original output is
    among them. *)
Theorem outputs_replaced_by_scores_boxes_classes :
  length anchors = scales ->
  exists plan s,
    result = (Normal plan, s) /\
    List.filter is_marking (events s) =
      map unmarkOutput (net_outputs parsed) ++
      map markOutput (net_outputs (network s)) /\
    length (net_outputs (network s)) = 3%nat /\
    output_names (network s) =
      [Some "scores"; Some "boxes"; Some "classes"] /\
    (forall t, t ∈ net_outputs parsed -> t ∉ net_outputs (network s)).
Proof.
  intros Hanchors.
  destruct (Engine_build_run onnx_model onnx_size bmin bopt bmax precision
              score_thresh top_n anchors rotated nms_thresh detections_per_im
              calibration_images model_name calibration_table workspace_size
              input input_tensor input_0 input_exists wf)
    as (s & Hrun & Hev & Hnames & Hleft & _).
  { fold parsed. rewrite scales_is_half. exact some_scale. }
  { fold parsed. rewrite scales_is_half, Hanchors. reflexivity. }
  eexists _, s. split; [exact Hrun |].
  split; [| split; [| split; [exact Hnames | exact Hleft]]].
  - rewrite Hev. cbn [app List.filter is_marking].
    rewrite !List.filter_app, filter_marking_unmark, filter_marking_mark.
    cbn. rewrite app_nil_r. reflexivity.
  - apply (f_equal length) in Hnames. unfold output_names in Hnames.
    rewrite length_map in Hnames. exact Hnames.
Qed.

(** C2, as the code has it.  The constructor never compares the number of
    anchor lists with the number of scales.  With more anchor lists than
    scales the build ends normally: the network is rewritten, the line
    "Applying optimizations..." is printed and the plan compiler is called,
    and the plan is what the compiler returns. *)
Theorem surplus_anchors_reach_compiler :
  (scales < length anchors)%nat ->
  exists s,
    result =
      (Normal (builder_buildSerializedNetwork (network s) (builderConfig s)
                 (builder_profiles s)), s) /\
    (cout "Applying optimizations and building TRT CUDA engine..."
       ∈ events s) /\
    (buildSerializedNetwork ∈ events s) /\
    output_names (network s) =
      [Some "scores"; Some "boxes"; Some "classes"] /\
    network s <> parsed.
Proof.
  intros Hanchors.
  destruct (Engine_build_run onnx_model onnx_size bmin bopt bmax precision
              score_thresh top_n anchors rotated nms_thresh detections_per_im
              calibration_images model_name calibration_table workspace_size
              input input_tensor input_0 input_exists wf)
    as (s & Hrun & Hev & Hnames & Hleft & _).
  { fold parsed. rewrite scales_is_half. exact some_scale. }
  { fold parsed. rewrite scales_is_half. lia. }
  exists s. split; [exact Hrun |].
  split; [| split; [| split; [exact Hnames |]]].
  - rewrite Hev, !elem_of_app. right. right. right. apply list_elem_of_here.
  - rewrite Hev, !elem_of_app. right. right. right.
    apply list_elem_of_further, list_elem_of_here.
  - intros Heq.
    destruct (lookup_lt_is_Some_2 (net_outputs parsed) 0 ltac:(lia))
      as [t Ht].
    apply list_elem_of_lookup_2 in Ht.
    apply (Hleft t Ht). rewrite Heq. exact Ht.
Qed.

End OutputsReplaced.

(** ** Runs that stop *)

Section Stops.
Context {St : Type}.

Lemma aborts_bind_l {A B : Type} (m : M St A) (k : A -> M St B) (s : St)
    (f : Fault) (Q : St -> Prop) :
  aborts m s f Q -> aborts (m ≫= k) s f Q.
Proof.
  intros (s' & Hm & HQ). exists s'. split; [| exact HQ].
  rewrite run_bind, Hm. reflexivity.
Qed.

Lemma aborts_bind_r {A B : Type} (m : M St A) (k : A -> M St B) (s : St)
    (f : Fault) (Q : St -> Prop) :
  returns m s (fun a s' => aborts (k a) s' f Q) -> aborts (m ≫= k) s f Q.
Proof.
  intros (a & s' & Hm & s'' & Hk & HQ). exists s''. split; [| exact HQ].
  rewrite run_bind, Hm. exact Hk.
Qed.

(** The first [a] rounds of a loop, then the others. *)
Lemma for_range_split {A : Type} (body : nat -> A -> M St A)
    (a b first : nat) (acc : A) (s : St) :
  run (for_range first (a + b) body acc) s =
  run (for_range first a body acc ≫= for_range (first + a) b body) s.
Proof.
  revert first acc s. induction a as [| a IH]; intros first acc s.
  - cbn [Nat.add for_range]. rewrite run_bind. cbn.
    rewrite Nat.add_0_r. reflexivity.
  - cbn [Nat.add for_range]. rewrite !run_bind.
    destruct (run (body first acc) s) as [[acc' | f] s']; [| reflexivity].
    rewrite IH, run_bind.
    replace (first + S a)%nat with (S first + a)%nat by lia. reflexivity.
Qed.

End Stops.

(** ** The loaded engine *)

(** C7.  On an engine in state Ready whose first two I/O tensors have
    different names, [getInputSize] returns dimensions 2 and 3 of the shape
    declared for I/O tensor 0, and [getMaxDetections] returns dimension 1 of
    the shape declared for I/O tensor 1; neither changes the state. *)
Theorem accessors_read_declared_shapes (s : RunState) (engine : ICudaEngine)
    (name0 name1 : string) (dims0 dims1 : Dims) :
  state_of (this s) = Ready ->
  _engine (this s) = Some engine ->
  io_tensors engine !! 0%nat = Some (name0, dims0) ->
  io_tensors engine !! 1%nat = Some (name1, dims1) ->
  name0 <> name1 ->
  run getInputSize s = (Normal [d dims0 2; d dims0 3], s) /\
  run getMaxDetections s = (Normal (d dims1 1), s).
Proof.
  intros _ Hengine H0 H1 Hne.
  unfold getInputSize, getMaxDetections. run_simpl. rewrite Hengine. cbn.
  unfold getTensorShape, getIOTensorName. rewrite H0, H1. cbn.
  destruct (io_tensors engine) as [| [n0 d0] [| [n1 d1] io]];
    try discriminate.
  cbn in H0, H1. injection H0 as -> ->. injection H1 as -> ->.
  cbn [shape_of]. rewrite String.eqb_refl.
  destruct (String.eqb_spec name0 name1) as [Heq | _]; [contradiction |].
  rewrite String.eqb_refl. split; reflexivity.
Qed.

Section Infer.
Variables (s : RunState) (engine : ICudaEngine).
Variables (buffers : list device_address) (batch : Z).

Hypothesis ready : state_of (this s) = Ready.
Hypothesis engine_loaded : _engine (this s) = Some engine.

Let bind_call (io : string * Dims) (address : device_address) : Call :=
  setTensorAddress (Some (fst io)) address.

(** After [i] rounds of the binding loop. *)
Let bound (i : nat) (_ : unit) (s' : RunState) : Prop :=
  _engine (this s') = Some engine /\
  is_Some (_context (this s')) /\
  _stream (this s') = _stream (this s) /\
  device_streams s' = device_streams s /\
  calls s' =
    calls s ++ zip_with bind_call (take i (io_tensors engine))
                 (take i buffers).

Lemma bind_round i acc s' :
  (i < length buffers)%nat ->
  (i < getNbIOTensors engine)%nat ->
  bound i acc s' ->
  returns (address ← vector_at buffers i;
           context_setTensorAddress (getIOTensorName engine i) address)
          s' (bound (S i)).
Proof.
  intros Hbuf Hio (Heng & [ctx Hctx] & Hstream & Hdev & Hcalls).
  destruct (lookup_lt_is_Some_2 buffers i Hbuf) as [a Ha].
  destruct (lookup_lt_is_Some_2 (io_tensors engine) i Hio) as [io Hio'].
  apply returns_bind. eapply returns_vector_at; [exact Ha |].
  unfold context_setTensorAddress.
  apply returns_bind, returns_gets. rewrite Hctx.
  apply returns_bind. eapply returns_deref; [reflexivity |].
  apply returns_bind. unfold call. apply returns_modify.
  apply returns_modify.
  unfold bound. cbn.
  split; [exact Heng |]. split; [eexists; reflexivity |].
  split; [exact Hstream |]. split; [exact Hdev |].
  rewrite Hcalls, (take_S_r _ _ _ Ha), (take_S_r _ _ _ Hio').
  rewrite zip_with_app.
  2: { rewrite !length_take_le; [reflexivity | lia |].
       unfold getNbIOTensors in Hio. lia. }
  unfold getIOTensorName. rewrite Hio'. cbn.
  rewrite <- app_assoc. reflexivity.
Qed.

(** C8.  On a Ready engine, [infer] with fewer buffers than the engine has
    I/O tensors stops with [std::out_of_range]: it has bound the tensors
    that have a buffer, in order, and has made no other call, so that
    nothing was enqueued and no stream was waited for. *)
Theorem infer_short_buffers_throws :
  (length buffers < getNbIOTensors engine)%nat ->
  exists s',
    run (infer buffers batch) s = (Abort out_of_range, s') /\
    calls s' =
      calls s ++
      zip_with (fun io address => setTensorAddress (Some (fst io)) address)
        (io_tensors engine) buffers /\
    forall stream, enqueueV3 stream ∉ drop (length (calls s)) (calls s').
Proof.
  intros Hshort.
  assert (Hctx : is_Some (_context (this s))).
  { unfold state_of in ready. rewrite engine_loaded in ready.
    destruct (_context (this s)); [eexists; reflexivity | discriminate]. }
  assert (Haborts :
    aborts (infer buffers batch) s out_of_range
      (fun s' => calls s' =
                 calls s ++ zip_with bind_call (io_tensors engine) buffers)).
  { unfold infer.
    apply aborts_bind_r, returns_gets. rewrite engine_loaded.
    apply aborts_bind_r. eapply returns_deref; [reflexivity |].
    apply aborts_bind_l.
    destruct (Nat.le_exists_sub (S (length buffers)) (getNbIOTensors engine)
                ltac:(lia)) as (more & Hmore & _).
    replace (getNbIOTensors engine)
      with (length buffers + S more)%nat by lia.
    unfold aborts. rewrite for_range_split.
    apply aborts_bind_r.
    eapply returns_mono.
    { apply (returns_for_range bound _ (length buffers) 0%nat).
      - intros i acc s' Hi. apply bind_round; lia.
      - unfold bound. rewrite !take_0. cbn. rewrite app_nil_r.
        repeat split; [exact engine_loaded | exact Hctx]. }
    intros [] s' (_ & _ & _ & _ & Hcalls).
    cbn [Nat.add] in Hcalls. cbn [Nat.add for_range].
    apply aborts_bind_l, aborts_bind_l.
    exists s'. split.
    - unfold vector_at. rewrite lookup_ge_None_2 by lia. reflexivity.
    - rewrite Hcalls, firstn_all, zip_with_take_l. reflexivity. }
  destruct Haborts as (s' & Hrun & Hcalls).
  exists s'. split; [exact Hrun |]. split; [exact Hcalls |].
  intros stream. rewrite Hcalls, drop_app_length.
  intros Hin. apply elem_of_lookup_zip_with in Hin
    as (i & io & a & Heq & _). discriminate.
Qed.

(** C10.  [infer] never reads [batch]: two calls that differ only in it end
    in the same way and in the same state, so they bind the same addresses
    and make the same calls. *)
Theorem infer_ignores_batch (batch' : Z) :
  run (infer buffers batch) s = run (infer buffers batch') s.
Proof. reflexivity. Qed.

End Infer.

(** C9.  [_prepare] on an engine whose plan is loaded, with a [_stream]
    member that is null or an earlier handle: the profile is selected on
    the value [_stream] had on entry, the stream is created only after that
    call, and the handle created, which [_stream] holds from then on, is not
    the one that was passed. *)
Theorem prepare_selects_profile_on_stale_stream (s : RunState)
    (engine : ICudaEngine) :
  _engine (this s) = Some engine ->
  (_stream (this s) <= device_streams s)%nat ->
  exists s',
    run _prepare s = (Normal tt, s') /\
    calls s' =
      calls s ++
      [createExecutionContext;
       setOptimizationProfileAsync 0 (_stream (this s));
       cudaStreamCreate (_stream (this s'))] /\
    _stream (this s') <> _stream (this s) /\
    state_of (this s') = Ready.
Proof.
  intros Hengine Hstale.
  unfold _prepare, engine_createExecutionContext,
    context_setOptimizationProfileAsync, stream_create, call.
  run_simpl. rewrite Hengine. cbn.
  eexists. split; [reflexivity |]. cbn.
  split; [rewrite <- !app_assoc; reflexivity |].
  split; [lia |].
  unfold state_of. cbn. rewrite Hengine. reflexivity.
Qed.

(** ** The sample model *)

Lemma outputs_replaced_by_scores_boxes_classes_witness :
  exists plan s,
    Sample.build [1; 4; 8] "FP32" Sample.anchors false = (Normal plan, s) /\
    List.filter is_marking (events s) =
      map unmarkOutput (net_outputs Sample.parsed) ++
      map markOutput (net_outputs (network s)) /\
    length (net_outputs (network s)) = 3%nat /\
    output_names (network s) =
      [Some "scores"; Some "boxes"; Some "classes"] /\
    (forall t, t ∈ net_outputs Sample.parsed -> t ∉ net_outputs (network s)).
Proof.
  apply (@outputs_replaced_by_scores_boxes_classes Sample.collaborators
           [] 0%nat 1 4 8 "FP32" Sample.half 1000 Sample.anchors false
           Sample.half 100 ["a.jpg"; "b.jpg"] "model" "table" 1024
           0%nat Sample.input_tensor 2%nat);
    first [reflexivity | lia].
Defined.

(** C2 as stated fails: the sample model has two scales, the build gets
    three anchor lists, and yet it ends normally with a plan, after printing
    "Applying optimizations..." and calling the plan compiler on a network
    that is no longer the parsed one. *)
Lemma anchor_mismatch_is_not_detected :
  length Sample.surplus_anchors <>
    (length (net_outputs Sample.parsed) / 2)%nat /\
  fst (Sample.build [1; 4; 8] "FP32" Sample.surplus_anchors false) =
    Normal (Some []) /\
  ~ fails_fast Sample.parsed
      (Sample.build [1; 4; 8] "FP32" Sample.surplus_anchors false).
Proof.
  split; [vm_compute; lia |]. split; [vm_compute; reflexivity |].
  intros [[f Hf] _]. vm_compute in Hf. discriminate Hf.
Qed.

Lemma surplus_anchors_reach_compiler_witness :
  exists s,
    Sample.build [1; 4; 8] "FP32" Sample.surplus_anchors false =
      (Normal (@builder_buildSerializedNetwork Sample.collaborators
                 (network s) (builderConfig s) (builder_profiles s)), s) /\
    (cout "Applying optimizations and building TRT CUDA engine..."
       ∈ events s) /\
    (buildSerializedNetwork ∈ events s) /\
    output_names (network s) =
      [Some "scores"; Some "boxes"; Some "classes"] /\
    network s <> Sample.parsed.
Proof.
  apply (@surplus_anchors_reach_compiler Sample.collaborators
           [] 0%nat 1 4 8 "FP32" Sample.half 1000 Sample.surplus_anchors
           false Sample.half 100 ["a.jpg"; "b.jpg"] "model" "table" 1024
           0%nat Sample.input_tensor 2%nat);
    first [reflexivity | vm_compute; lia].
Defined.

Lemma profile_shapes_follow_batch_triple_witness :
  exists (p : IOptimizationProfile) (lo mid hi : Dims),
    builder_profiles (snd (Sample.build [1; 4; 8] "FP16" Sample.anchors true))
      = [p] /\
    profile_getDimensions "input_1" kMIN p = Some lo /\
    profile_getDimensions "input_1" kOPT p = Some mid /\
    profile_getDimensions "input_1" kMAX p = Some hi /\
    lo = [1; 3; 512; 512] /\
    mid = [4; 3; 512; 512] /\
    hi = [8; 3; 512; 512] /\
    Forall2 Z.le lo mid /\ Forall2 Z.le mid hi /\
    cfg_profiles
      (builderConfig
         (snd (Sample.build [1; 4; 8] "FP16" Sample.anchors true))) =
      if Sample.valid p then [0%nat] else [].
Proof.
  apply (@profile_shapes_follow_batch_triple Sample.collaborators
           [] 0%nat 1 4 8 "FP16" Sample.half 1000 Sample.anchors true
           Sample.half 100 ["a.jpg"; "b.jpg"] "model" "table" 1024
           0%nat Sample.input_tensor);
    first [reflexivity | lia].
Defined.

Lemma calibrator_iff_INT8_witness :
  cfg_int8_calibrator
    (builderConfig (snd (Sample.build [1; 4; 8] "FP16" Sample.anchors false)))
    = None /\
  cfg_int8_calibrator
    (builderConfig (snd (Sample.build [1; 4; 8] "INT8" Sample.anchors false)))
    = Some {| calib_stream :=
                {| stream_batch := 4;
                   stream_inputDims := [1; 3; 512; 512];
                   stream_calibration_images := ["a.jpg"; "b.jpg"] |};
              calib_model_name := "model";
              calib_calibration_table := "table" |}.
Proof.
  split.
  - apply (proj1 (@calibrator_iff_INT8 Sample.collaborators
                    [] 0%nat [1; 4; 8] "FP16" Sample.half 1000 Sample.anchors
                    false Sample.half 100 ["a.jpg"; "b.jpg"] "model" "table"
                    1024)).
    discriminate.
  - apply (proj2 (@calibrator_iff_INT8 Sample.collaborators
                    [] 0%nat [1; 4; 8] "INT8" Sample.half 1000 Sample.anchors
                    false Sample.half 100 ["a.jpg"; "b.jpg"] "model" "table"
                    1024) eq_refl 1 4 8 0%nat Sample.input_tensor
             eq_refl eq_refl eq_refl).
Defined.

Lemma decode_pairs_class_and_box_maps_witness :
  exists (s : BuildState) (classOutput boxOutput : ITensor_ptr)
         (class_map : ITensor) (anchors_i : list float)
         (outs : list ITensor_ptr),
    s = snd (Sample.build [1; 4; 8] "FP32" Sample.anchors true) /\
    net_outputs Sample.parsed !! 1%nat = Some classOutput /\
    net_outputs Sample.parsed !! (2 + 1)%nat = Some boxOutput /\
    net_tensors Sample.parsed !! classOutput = Some class_map /\
    Sample.anchors !! 1%nat = Some anchors_i /\
    net_layers (network s) !! (0 + 1)%nat =
      Some (PluginV2Layer [classOutput; boxOutput]
              (DecodeRotatePlugin Sample.half 1000 anchors_i
                 (Z.quot 512 (d (getDimensions class_map) 2)))
              outs).
Proof.
  apply (@decode_pairs_class_and_box_maps Sample.collaborators
           [] 0%nat 1 4 8 "FP32" Sample.half 1000 Sample.anchors true
           Sample.half 100 ["a.jpg"; "b.jpg"] "model" "table" 1024
           0%nat Sample.input_tensor);
    first [reflexivity | vm_compute; lia].
Defined.

Lemma accessors_read_declared_shapes_witness :
  run getInputSize Sample.ready = (Normal [512; 512], Sample.ready) /\
  run getMaxDetections Sample.ready = (Normal 100, Sample.ready).
Proof.
  apply (accessors_read_declared_shapes Sample.ready Sample.engine
           "input_1" "scores" [1; 3; 512; 512] [1; 100]);
    first [reflexivity | discriminate].
Defined.

Lemma infer_short_buffers_throws_witness :
  exists s',
    run (infer [1; 2; 3] 1) Sample.ready = (Abort out_of_range, s') /\
    calls s' =
      calls Sample.ready ++
      zip_with (fun io address => setTensorAddress (Some (fst io)) address)
        (io_tensors Sample.engine) [1; 2; 3] /\
    forall stream,
      enqueueV3 stream ∉ drop (length (calls Sample.ready)) (calls s').
Proof.
  apply (infer_short_buffers_throws Sample.ready Sample.engine [1; 2; 3] 1);
    first [reflexivity | vm_compute; lia].
Defined.

Lemma prepare_selects_profile_on_stale_stream_witness :
  exists s',
    run _prepare Sample.loaded = (Normal tt, s') /\
    calls s' =
      calls Sample.loaded ++
      [createExecutionContext;
       setOptimizationProfileAsync 0 (_stream (this Sample.loaded));
       cudaStreamCreate (_stream (this s'))] /\
    _stream (this s') <> _stream (this Sample.loaded) /\
    state_of (this s') = Ready.
Proof.
  apply (prepare_selects_profile_on_stale_stream Sample.loaded Sample.engine);
    first [reflexivity | vm_compute; lia].
Defined.

(** ** A complete inference call *)

Lemma address_of_latest (name : string) (address : device_address)
    (l old : list (string * device_address)) (i : nat) :
  NoDup (map fst l) ->
  l !! i = Some (name, address) ->
  address_of name (rev l ++ old) = Some address.
Proof.
  revert i. induction l as [| [name' a'] l IH] using rev_ind;
    intros i Hnd Hi; [discriminate |].
  rewrite rev_unit. cbn [app address_of].
  rewrite map_app in Hnd. cbn [map fst] in Hnd.
  apply NoDup_app in Hnd as (Hnd & Hfresh & _).
  destruct (decide (i < length l)%nat) as [Hlt | Hge].
  - rewrite lookup_app_l in Hi by exact Hlt.
    destruct (String.eqb_spec name' name) as [-> | _].
    + exfalso. apply (Hfresh name); [| apply list_elem_of_here].
      apply list_elem_of_In, in_map_iff. exists (name, address).
      split; [reflexivity |].
      apply list_elem_of_In, (list_elem_of_lookup_2 _ i), Hi.
    + apply (IH i Hnd Hi).
  - rewrite lookup_app_r in Hi by lia.
    destruct (i - length l)%nat; [| discriminate].
    injection Hi as -> ->. rewrite String.eqb_refl. reflexivity.
Qed.

Section InferRuns.
Variables (s : RunState) (engine : ICudaEngine) (context : IExecutionContext).
Variables (buffers : list device_address) (batch : Z).

Hypothesis engine_loaded : _engine (this s) = Some engine.
Hypothesis context_created : _context (this s) = Some context.
Hypothesis enough_buffers : (getNbIOTensors engine <= length buffers)%nat.

Let names : list string := map fst (io_tensors engine).

Let binding (io : string * Dims) (address : device_address) : Call :=
  setTensorAddress (Some (fst io)) address.

(** The state after [i] rounds of the binding loop, and then [more]
    calls. *)
Let bound_state (i : nat) (more : list Call) : RunState :=
  {| this :=
       {| _engine := Some engine;
          _context :=
            Some {| ctx_profile := ctx_profile context;
                    ctx_addresses :=
                      rev (zip (take i names) (take i buffers)) ++
                      ctx_addresses context |};
          _stream := _stream (this s) |};
     device_streams := device_streams s;
     calls :=
       calls s ++
       zip_with binding (take i (io_tensors engine)) (take i buffers) ++
       more |}.

Lemma binding_round (i : nat) :
  (i < getNbIOTensors engine)%nat ->
  returns (address ← vector_at buffers i;
           context_setTensorAddress (getIOTensorName engine i) address)
          (bound_state i []) (fun _ s' => s' = bound_state (S i) []).
Proof.
  intros Hi. unfold getNbIOTensors in *.
  destruct (lookup_lt_is_Some_2 buffers i ltac:(lia)) as [a Ha].
  destruct (lookup_lt_is_Some_2 (io_tensors engine) i Hi) as [[name dims] Hio].
  assert (Hname : names !! i = Some name).
  { unfold names. rewrite list_lookup_fmap, Hio. reflexivity. }
  apply returns_bind. eapply returns_vector_at; [exact Ha |].
  unfold context_setTensorAddress.
  apply returns_bind, returns_gets. cbn [bound_state this _context].
  apply returns_bind. eapply returns_deref; [reflexivity |].
  apply returns_bind. unfold call. apply returns_modify.
  apply returns_modify.
  unfold bound_state, on_this, set_context, getIOTensorName. cbn.
  rewrite Hio. cbn.
  rewrite (take_S_r _ _ _ Ha), (take_S_r _ _ _ Hio), (take_S_r _ _ _ Hname).
  assert (Hlen : forall A (l : list A),
            (i < length l)%nat -> length (take i l) = length (take i buffers)).
  { intros A l Hl. rewrite !length_take_le; [reflexivity | lia | lia]. }
  rewrite (zip_with_app binding) by (apply Hlen; exact Hi).
  rewrite (zip_with_app pair)
    by (apply Hlen; unfold names; rewrite length_map; exact Hi).
  cbn [zip_with]. rewrite rev_unit, !app_nil_r.
  rewrite <- !app_assoc. reflexivity.
Qed.

(** The run of [infer] when every I/O tensor has a buffer. *)
Lemma infer_run :
  run (infer buffers batch) s =
    (Normal tt,
     bound_state (getNbIOTensors engine)
       [enqueueV3 (_stream (this s));
        cudaStreamSynchronize (_stream (this s))]).
Proof.
  assert (Hstart : s = bound_state 0 []).
  { unfold bound_state. rewrite !take_0. cbn. rewrite app_nil_r.
    destruct s as [[e c st] ds cs], context as [pr ad]. cbn in *. subst.
    reflexivity. }
  assert (Hloop :
    returns (for_range 0 (getNbIOTensors engine)
               (fun i _ =>
                  address ← vector_at buffers i;
                  context_setTensorAddress (getIOTensorName engine i) address)
               tt) s
      (fun _ s' => s' = bound_state (getNbIOTensors engine) [])).
  { apply (returns_for_range (fun i _ s' => s' = bound_state i [])
             _ (getNbIOTensors engine) 0%nat).
    - intros i [] s' Hi ->. apply binding_round. lia.
    - exact Hstart. }
  assert (Hreturns :
    returns (infer buffers batch) s
      (fun _ s' =>
         s' = bound_state (getNbIOTensors engine)
                [enqueueV3 (_stream (this s));
                 cudaStreamSynchronize (_stream (this s))])).
  { unfold infer. apply returns_bind, returns_gets. rewrite engine_loaded.
    apply returns_bind. eapply returns_deref; [reflexivity |].
    apply returns_bind. eapply returns_mono; [exact Hloop |].
    intros [] s' ->. cbv beta.
    apply returns_bind, returns_gets. cbn [bound_state this _stream].
    apply returns_bind. unfold context_enqueueV3.
    apply returns_bind, returns_gets. cbn [bound_state this _context].
    apply returns_bind. eapply returns_deref; [reflexivity |].
    unfold call. apply returns_modify. apply returns_modify.
    unfold bound_state. cbn. rewrite app_nil_r, <- !app_assoc. reflexivity. }
  destruct Hreturns as ([] & s' & Hrun & ->). exact Hrun.
Qed.

End InferRuns.

(** X1.  On an engine with a context, [infer] with at least as many buffers
    as the engine has I/O tensors ends normally: it binds I/O tensor [i] to
    [buffers[i]] for every [i], in the engine's order, then enqueues once
    and waits once, both on [_stream]; buffers beyond the last tensor are
    never read, and the engine stays Ready with the same stream. *)
Theorem infer_binds_then_enqueues_then_waits (s : RunState)
    (engine : ICudaEngine) (context : IExecutionContext)
    (buffers : list device_address) (batch : Z) :
  _engine (this s) = Some engine ->
  _context (this s) = Some context ->
  (getNbIOTensors engine <= length buffers)%nat ->
  exists s',
    run (infer buffers batch) s = (Normal tt, s') /\
    calls s' =
      calls s ++
      zip_with (fun io address => setTensorAddress (Some (fst io)) address)
        (io_tensors engine) (take (getNbIOTensors engine) buffers) ++
      [enqueueV3 (_stream (this s));
       cudaStreamSynchronize (_stream (this s))] /\
    state_of (this s') = Ready /\
    _engine (this s') = Some engine /\
    _stream (this s') = _stream (this s) /\
    device_streams s' = device_streams s.
Proof.
  intros Hengine Hcontext Henough.
  eexists. split; [apply (infer_run s engine context); assumption |].
  cbn. unfold getNbIOTensors. rewrite firstn_all.
  repeat split; reflexivity.
Qed.

(** X2.  When the I/O tensors have distinct names, after such a call the
    address in force for I/O tensor [i] is [buffers[i]], whatever had been
    bound before. *)
Theorem infer_puts_buffers_in_force (s : RunState) (engine : ICudaEngine)
    (context : IExecutionContext) (buffers : list device_address)
    (batch : Z) (i : nat) (name : string) (dims : Dims)
    (address : device_address) :
  _engine (this s) = Some engine ->
  _context (this s) = Some context ->
  (getNbIOTensors engine <= length buffers)%nat ->
  NoDup (map fst (io_tensors engine)) ->
  io_tensors engine !! i = Some (name, dims) ->
  buffers !! i = Some address ->
  exists context',
    _context (this (snd (run (infer buffers batch) s))) = Some context' /\
    address_of name (ctx_addresses context') = Some address.
Proof.
  intros Hengine Hcontext Henough Hnames Hio Hbuffer.
  rewrite (infer_run s engine context buffers batch Hengine Hcontext Henough).
  eexists. split; [reflexivity |]. cbn [ctx_addresses].
  assert (Hi : (i < getNbIOTensors engine)%nat)
    by (apply lookup_lt_Some in Hio; exact Hio).
  apply (address_of_latest _ _ _ _ i).
  - rewrite fst_zip.
    + unfold getNbIOTensors. rewrite <- (length_map fst), firstn_all.
      exact Hnames.
    + rewrite !length_take. unfold getNbIOTensors in *.
      rewrite length_map. lia.
  - apply lookup_zip_with_Some. exists name, address.
    split; [reflexivity |].
    rewrite !lookup_take_lt by exact Hi.
    rewrite list_lookup_fmap, Hio. split; [reflexivity | exact Hbuffer].
Qed.

(** X3.  [_prepare] followed by [infer]: the work is enqueued on, and
    waited for on, the stream that [_prepare] created, which is not the
    handle the profile was selected on. *)
Theorem prepare_then_infer_runs_on_created_stream (s : RunState)
    (engine : ICudaEngine) (buffers : list device_address) (batch : Z) :
  _engine (this s) = Some engine ->
  (_stream (this s) <= device_streams s)%nat ->
  (getNbIOTensors engine <= length buffers)%nat ->
  exists s' created,
    run (_prepare;; infer buffers batch) s = (Normal tt, s') /\
    created <> _stream (this s) /\
    _stream (this s') = created /\
    calls s' =
      calls s ++
      [createExecutionContext;
       setOptimizationProfileAsync 0 (_stream (this s));
       cudaStreamCreate created] ++
      zip_with (fun io address => setTensorAddress (Some (fst io)) address)
        (io_tensors engine) (take (getNbIOTensors engine) buffers) ++
      [enqueueV3 created; cudaStreamSynchronize created].
Proof.
  intros Hengine Hstale Henough.
  assert (Hprepare : exists s1,
            run _prepare s = (Normal tt, s1) /\
            _engine (this s1) = Some engine /\
            _context (this s1) =
              Some {| ctx_profile := Some 0; ctx_addresses := [] |} /\
            _stream (this s1) = S (device_streams s) /\
            device_streams s1 = S (device_streams s) /\
            calls s1 =
              calls s ++
              [createExecutionContext;
               setOptimizationProfileAsync 0 (_stream (this s));
               cudaStreamCreate (S (device_streams s))]).
  { unfold _prepare, engine_createExecutionContext,
      context_setOptimizationProfileAsync, stream_create, call.
    run_simpl. rewrite Hengine. cbn.
    eexists. split; [reflexivity |]. cbn.
    repeat split; try assumption. rewrite <- !app_assoc. reflexivity. }
  destruct Hprepare as (s1 & Hrun1 & Heng1 & Hctx1 & Hst1 & _ & Hcalls1).
  exists (snd (run (infer buffers batch) s1)), (S (device_streams s)).
  split.
  { rewrite run_bind, Hrun1.
    rewrite (infer_run s1 engine _ buffers batch Heng1 Hctx1 Henough).
    reflexivity. }
  rewrite (infer_run s1 engine _ buffers batch Heng1 Hctx1 Henough).
  cbn. rewrite Hst1, Hcalls1.
  split; [lia |]. split; [reflexivity |].
  unfold getNbIOTensors. rewrite firstn_all, <- !app_assoc. reflexivity.
Qed.

(** X4.  Two [infer] calls in a row on an engine whose I/O tensors have
    distinct names: both end normally, each binds, enqueues and waits in
    turn, and afterwards the address in force for I/O tensor [i] is the one
    of the second call. *)
Theorem second_infer_rebinds_every_tensor (s : RunState)
    (engine : ICudaEngine) (context : IExecutionContext)
    (first second : list device_address) (batch batch' : Z) :
  _engine (this s) = Some engine ->
  _context (this s) = Some context ->
  (getNbIOTensors engine <= length first)%nat ->
  (getNbIOTensors engine <= length second)%nat ->
  NoDup (map fst (io_tensors engine)) ->
  exists s' context',
    run (infer first batch;; infer second batch') s = (Normal tt, s') /\
    _context (this s') = Some context' /\
    calls s' =
      calls s ++
      (zip_with (fun io address => setTensorAddress (Some (fst io)) address)
         (io_tensors engine) first ++
       [enqueueV3 (_stream (this s));
        cudaStreamSynchronize (_stream (this s))]) ++
      (zip_with (fun io address => setTensorAddress (Some (fst io)) address)
         (io_tensors engine) second ++
       [enqueueV3 (_stream (this s));
        cudaStreamSynchronize (_stream (this s))]) /\
    forall i name dims address,
      io_tensors engine !! i = Some (name, dims) ->
      second !! i = Some address ->
      address_of name (ctx_addresses context') = Some address.
Proof.
  intros Hengine Hcontext Hfirst Hsecond Hnames.
  pose proof (infer_run s engine context first batch Hengine Hcontext Hfirst)
    as Hrun1.
  set (s1 := snd (run (infer first batch) s)).
  assert (Hs1 : run (infer first batch) s = (Normal tt, s1))
    by (unfold s1; rewrite Hrun1; reflexivity).
  assert (Heng1 : _engine (this s1) = Some engine)
    by (unfold s1; rewrite Hrun1; reflexivity).
  destruct (_context (this s1)) as [context1 |] eqn:Hctx1;
    [| unfold s1 in Hctx1; rewrite Hrun1 in Hctx1; discriminate].
  pose proof (infer_run s1 engine context1 second batch' Heng1 Hctx1 Hsecond)
    as Hrun2.
  eexists _, _. split; [rewrite run_bind, Hs1; exact Hrun2 |].
  split; [reflexivity |]. split.
  - cbn [calls]. unfold s1. rewrite Hrun1. cbn [snd calls this _stream].
    unfold getNbIOTensors. rewrite !firstn_all.
    rewrite <- (zip_with_take_r _ _ first), <- (zip_with_take_r _ _ second).
    rewrite <- !app_assoc. reflexivity.
  - intros i name dims address Hio Hbuffer. cbn [ctx_addresses].
    assert (Hi : (i < getNbIOTensors engine)%nat)
      by (apply lookup_lt_Some in Hio; exact Hio).
    apply (address_of_latest _ _ _ _ i).
    + rewrite fst_zip.
      * unfold getNbIOTensors. rewrite <- (length_map fst), firstn_all.
        exact Hnames.
      * rewrite !length_take. unfold getNbIOTensors in *.
        rewrite length_map. lia.
    + apply lookup_zip_with_Some. exists name, address.
      split; [reflexivity |].
      rewrite !lookup_take_lt by exact Hi.
      rewrite list_lookup_fmap, Hio. split; [reflexivity | exact Hbuffer].
Qed.

(** X5.  The stream that [_prepare] creates is what the destructor
    destroys afterwards: one call of [cudaStreamDestroy], on the created
    handle and never on the handle the profile was selected on. *)
Theorem destructor_destroys_created_stream (s : RunState)
    (engine : ICudaEngine) :
  _engine (this s) = Some engine ->
  (_stream (this s) <= device_streams s)%nat ->
  exists s' created,
    run _prepare s = (Normal tt, s') /\
    last (calls s') = Some (cudaStreamCreate created) /\
    Engine_destructor (this s') = [cudaStreamDestroy created] /\
    cudaStreamDestroy (_stream (this s)) ∉ Engine_destructor (this s').
Proof.
  intros Hengine Hstale.
  unfold _prepare, engine_createExecutionContext,
    context_setOptimizationProfileAsync, stream_create, call.
  run_simpl. rewrite Hengine. cbn.
  eexists _, _. split; [reflexivity |]. cbn.
  split; [rewrite last_snoc; reflexivity |].
  split; [reflexivity |].
  rewrite list_elem_of_singleton. intros Heq. injection Heq as Heq. lia.
Qed.

(** ** Builds that go wrong before the plugins *)

Section EarlyFaults.
Context `{Collaborators}.
Variables (onnx_model : list Byte.byte) (onnx_size : nat).
Variables (dynamic_batch_opts : list Z) (precision : string).
Variables (score_thresh : float) (top_n : Z) (anchors : list (list float)).
Variables (rotated : bool) (nms_thresh : float) (detections_per_im : Z).
Variables (calibration_images : list string).
Variables (model_name calibration_table : string) (workspace_size : Z).

Let parsed := parser_parse onnx_model onnx_size.

Let result :=
  run (Engine_build onnx_model onnx_size dynamic_batch_opts precision
         score_thresh top_n anchors rotated nms_thresh detections_per_im
         calibration_images model_name calibration_table workspace_size)
      fresh_build.

Let first_line : Event :=
  cout (String.append "Building " (String.append precision " core model...")).

Ltac unfold_blocks :=
  unfold result, Engine_build, create_builder, parse_onnx, create_profile,
    calibrate, network_getInput, tensor, isValid, when,
    builder_createOptimizationProfile, setDimensions,
    config_addOptimizationProfile, config_setFlag, config_setMemoryPoolLimit,
    config_setCalibrationProfile, config_setInt8Calibrator,
    profile_setDimensions, Dims4, fresh_build.

(** X6.  The result of parsing is not looked at.  When the parsed network
    has no input, the constructor dereferences the null input right after
    parsing: only the first line has been printed, no profile exists, the
    network is as parsed and nothing else has happened. *)
Theorem build_dereferences_missing_input :
  net_inputs parsed !! 0%nat = None ->
  exists s,
    result = (Abort NullDereference, s) /\
    events s = [first_line] /\
    builder_profiles s = [] /\
    cfg_profiles (builderConfig s) = [] /\
    network s = parsed.
Proof.
  intros Hinput. unfold_blocks.
  destruct (fp16 precision || int8 precision); run_simpl;
    fold parsed; rewrite Hinput; run_simpl;
    eexists; (split; [reflexivity |]); cbn; auto.
Qed.

(** X7.  The batch list is indexed without a check.  With fewer than three
    entries, on a network that has an input, the constructor reads past the
    end of [dynamic_batch_opts]: a profile has been created, but it holds no
    shape and is not in the configuration, no calibrator exists even for
    INT8, and the network is as parsed. *)
Theorem build_reads_past_short_batch_list (input : ITensor_ptr)
    (input_tensor : ITensor) :
  net_inputs parsed !! 0%nat = Some input ->
  net_tensors parsed !! input = Some input_tensor ->
  (length dynamic_batch_opts < 3)%nat ->
  exists s,
    result = (Abort VectorIndexOutOfBounds, s) /\
    events s = [first_line] /\
    builder_profiles s = [[]] /\
    cfg_profiles (builderConfig s) = [] /\
    cfg_int8_calibrator (builderConfig s) = None /\
    network s = parsed.
Proof.
  intros Hinput Htensor Hshort. unfold_blocks.
  destruct dynamic_batch_opts as [| b0 [| b1 [| b2 [| b3 opts]]]];
    cbn in Hshort; try lia;
    destruct (fp16 precision || int8 precision); run_simpl;
    fold parsed; rewrite Hinput; run_simpl; rewrite Htensor; run_simpl;
    eexists; (split; [reflexivity |]); cbn; auto.
Qed.

End EarlyFaults.

(** ** A rejected profile *)

Section RejectedProfile.
Context `{Collaborators}.
Variables (onnx_model : list Byte.byte) (onnx_size : nat).
Variables (bmin bopt bmax : Z) (precision : string).
Variables (score_thresh : float) (top_n : Z) (anchors : list (list float)).
Variables (rotated : bool) (nms_thresh : float) (detections_per_im : Z).
Variables (calibration_images : list string).
Variables (model_name calibration_table : string) (workspace_size : Z).
Variables (input : ITensor_ptr) (input_tensor : ITensor).

Let parsed := parser_parse onnx_model onnx_size.
Let inputDims := getDimensions input_tensor.
Let shape (batch : Z) : Dims :=
  [batch; d inputDims 1; d inputDims 2; d inputDims 3].
Let profile : IOptimizationProfile :=
  [ (getName input_tensor, kMAX, shape bmax);
    (getName input_tensor, kOPT, shape bopt);
    (getName input_tensor, kMIN, shape bmin) ].

Hypothesis input_0 : net_inputs parsed !! 0%nat = Some input.
Hypothesis input_exists : net_tensors parsed !! input = Some input_tensor.
Hypothesis wf : well_formed parsed = true.
Hypothesis some_scale : (1 <= length (net_outputs parsed) / 2)%nat.
Hypothesis enough_anchors :
  (length (net_outputs parsed) / 2 <= length anchors)%nat.
Hypothesis rejected : profile_isValid profile = false.

(** X8.  A profile that [isValid] rejects does not stop the build.  The
    profile is left out of the configuration, the plugins are added all the
    same, and the plan compiler is called with a configuration that has no
    profile; the plan is what the compiler returns.  With INT8 the rejected
    profile is still made the calibration profile. *)
Theorem rejected_profile_does_not_stop_build :
  exists s,
    run (Engine_build onnx_model onnx_size [bmin; bopt; bmax] precision
           score_thresh top_n anchors rotated nms_thresh detections_per_im
           calibration_images model_name calibration_table workspace_size)
        fresh_build =
      (Normal (builder_buildSerializedNetwork (network s) (builderConfig s)
                 (builder_profiles s)), s) /\
    builder_profiles s = [profile] /\
    cfg_profiles (builderConfig s) = [] /\
    (buildSerializedNetwork ∈ events s) /\
    output_names (network s) =
      [Some "scores"; Some "boxes"; Some "classes"] /\
    (precision = "INT8" ->
     cfg_calibration_profile (builderConfig s) = Some 0%nat).
Proof.
  destruct (Engine_build_run onnx_model onnx_size bmin bopt bmax precision
              score_thresh top_n anchors rotated nms_thresh detections_per_im
              calibration_images model_name calibration_table workspace_size
              input input_tensor input_0 input_exists wf some_scale
              enough_anchors)
    as (s & Hrun & Hev & Hnames & _).
  destruct (builder_at_end onnx_model onnx_size bmin bopt bmax precision
              score_thresh top_n anchors rotated nms_thresh detections_per_im
              calibration_images model_name calibration_table workspace_size
              input input_tensor input_0 input_exists)
    as [Hprofiles Hconfig].
  rewrite Hrun in Hprofiles, Hconfig. cbn [snd] in Hprofiles, Hconfig.
  fold inputDims in Hprofiles, Hconfig.
  fold (shape bmin) (shape bopt) (shape bmax) in Hprofiles, Hconfig.
  fold profile in Hprofiles, Hconfig. rewrite rejected in Hconfig.
  exists s. split; [exact Hrun |]. split; [exact Hprofiles |].
  split; [rewrite Hconfig; reflexivity |].
  split.
  { rewrite Hev, !elem_of_app. right. right. right.
    apply list_elem_of_further, list_elem_of_here. }
  split; [exact Hnames |].
  intros Hint8. rewrite Hconfig. cbn [cfg_calibration_profile].
  unfold int8. rewrite (proj2 (String.eqb_eq _ _) Hint8). reflexivity.
Qed.

End RejectedProfile.

(** ** Runs of programs that agree *)

Section Agreement.
Context {St : Type}.

Lemma run_bind_ext {A B : Type} (m : M St A) (k1 k2 : A -> M St B) (s : St) :
  (forall a s', run m s = (Normal a, s') -> run (k1 a) s' = run (k2 a) s') ->
  run (m ≫= k1) s = run (m ≫= k2) s.
Proof.
  intros Hk. rewrite !run_bind.
  destruct (run m s) as [[a | f] s']; [apply Hk |]; reflexivity.
Qed.

Lemma for_range_ext {A : Type} (body1 body2 : nat -> A -> M St A)
    (count first : nat) (acc : A) (s : St) :
  (forall i acc s, (first <= i < first + count)%nat ->
     run (body1 i acc) s = run (body2 i acc) s) ->
  run (for_range first count body1 acc) s =
  run (for_range first count body2 acc) s.
Proof.
  revert first acc s. induction count as [| count IH]; intros first acc s Hb.
  - reflexivity.
  - cbn [for_range]. rewrite !run_bind, (Hb first acc s) by lia.
    destruct (run (body2 first acc) s) as [[acc' | f] s']; [| reflexivity].
    apply IH. intros i acc0 s0 Hi. apply Hb. lia.
Qed.

Lemma keeps_run {A : Type} (R : relation St) (m : M St A) (s s' : St)
    (a : Outcome A) :
  keeps R m -> run m s = (a, s') -> R s s'.
Proof. intros Hkeep Hrun. specialize (Hkeep s). rewrite Hrun in Hkeep. exact Hkeep. Qed.

End Agreement.

#[global] Instance same_network_preorder : PreOrder same_network.
Proof.
  split.
  - intros s. reflexivity.
  - intros s1 s2 s3 H1 H2. unfold same_network in *. congruence.
Qed.

(** ** Anchors that are never read *)

Section SurplusAnchors.
Context `{Collaborators}.
Variables (onnx_model : list Byte.byte) (onnx_size : nat).
Variables (dynamic_batch_opts : list Z) (precision : string).
Variables (score_thresh : float) (top_n : Z).
Variables (anchors surplus : list (list float)).
Variables (rotated : bool) (nms_thresh : float) (detections_per_im : Z).
Variables (calibration_images : list string).
Variables (model_name calibration_table : string) (workspace_size : Z).

Lemma decode_body_agrees (anchors' : list (list float)) inputDims nbOutputs
    i acc s :
  anchors' !! i = anchors !! i ->
  run (decode_body score_thresh top_n anchors' rotated inputDims nbOutputs
         i acc) s =
  run (decode_body score_thresh top_n anchors rotated inputDims nbOutputs
         i acc) s.
Proof.
  intros Heq. destruct acc as [[scores boxes] classes].
  unfold decode_body, index. rewrite Heq. reflexivity.
Qed.

Lemma build_plugins_agrees inputDims s :
  (length (net_outputs (network s)) / 2 <= length anchors)%nat ->
  run (build_plugins score_thresh top_n (anchors ++ surplus) rotated
         nms_thresh detections_per_im inputDims) s =
  run (build_plugins score_thresh top_n anchors rotated nms_thresh
         detections_per_im inputDims) s.
Proof.
  intros Hanchors. unfold build_plugins.
  apply run_bind_ext. intros [] s1 Hemit.
  injection Hemit as <-.
  apply run_bind_ext. intros nbOutputs s2 Hnb.
  injection Hnb as <- <-. cbn [network].
  rewrite !run_bind. unfold add_decode_plugins.
  rewrite (for_range_ext
             (decode_body score_thresh top_n (anchors ++ surplus) rotated
                inputDims (length (net_outputs (network s))))
             (decode_body score_thresh top_n anchors rotated
                inputDims (length (net_outputs (network s))))).
  - reflexivity.
  - intros i acc s' Hi. apply decode_body_agrees.
    apply lookup_app_l. lia.
Qed.

Lemma keeps_network_before_plugins :
  keeps same_network (create_profile dynamic_batch_opts) /\
  forall inputDims profile,
    keeps same_network
      (calibrate dynamic_batch_opts precision calibration_images model_name
         calibration_table inputDims profile).
Proof.
  assert (Hcfg : forall f, keeps same_network (modify (on_config f)))
    by (intros f s; reflexivity).
  assert (Hprof : forall f, keeps same_network (modify (on_profiles f)))
    by (intros f s; reflexivity).
  assert (Hcreate : keeps same_network builder_createOptimizationProfile)
    by (intros s; reflexivity).
  split.
  - unfold create_profile, network_getInput, isValid, setDimensions,
      config_addOptimizationProfile.
    auto 20 with keeps.
  - intros inputDims profile. unfold calibrate, config_setFlag,
      config_setCalibrationProfile, config_setInt8Calibrator.
    destruct (int8 precision); auto 10 with keeps.
Qed.

(** X9.  Anchor lists beyond the number of scales, [nbOutputs / 2], are
    never read: with or without them the constructor ends in the same way
    and in the same state (plan, network, configuration, profiles and
    events), whether the build succeeds or not. *)
Theorem surplus_anchors_change_nothing :
  (length (net_outputs (parser_parse onnx_model onnx_size)) / 2
     <= length anchors)%nat ->
  run (Engine_build onnx_model onnx_size dynamic_batch_opts precision
         score_thresh top_n (anchors ++ surplus) rotated nms_thresh
         detections_per_im calibration_images model_name calibration_table
         workspace_size) fresh_build =
  run (Engine_build onnx_model onnx_size dynamic_batch_opts precision
         score_thresh top_n anchors rotated nms_thresh detections_per_im
         calibration_images model_name calibration_table workspace_size)
      fresh_build.
Proof.
  intros Hanchors. unfold Engine_build.
  destruct keeps_network_before_plugins as [Hprofile Hcalibrate].
  apply run_bind_ext. intros [] s1 _.
  apply run_bind_ext. intros [] s2 Hparse.
  assert (Hnet2 : network s2 = parser_parse onnx_model onnx_size).
  { unfold parse_onnx in Hparse. rewrite run_bind in Hparse.
    injection Hparse as <-. reflexivity. }
  apply run_bind_ext. intros [inputDims profile] s3 Hrun3.
  apply (keeps_run _ _ _ _ _ Hprofile) in Hrun3.
  apply run_bind_ext. intros [] s4 Hrun4.
  apply (keeps_run _ _ _ _ _ (Hcalibrate inputDims profile)) in Hrun4.
  rewrite !run_bind, build_plugins_agrees; [reflexivity |].
  rewrite <- Hrun4, <- Hrun3, Hnet2. exact Hanchors.
Qed.

End SurplusAnchors.

(** ** Too few anchors *)

Section MissingAnchors.
Context `{Collaborators}.
Variables (onnx_model : list Byte.byte) (onnx_size : nat).
Variables (bmin bopt bmax : Z) (precision : string).
Variables (score_thresh : float) (top_n : Z) (anchors : list (list float)).
Variables (rotated : bool) (nms_thresh : float) (detections_per_im : Z).
Variables (calibration_images : list string).
Variables (model_name calibration_table : string) (workspace_size : Z).
Variables (input : ITensor_ptr) (input_tensor : ITensor).

Let parsed := parser_parse onnx_model onnx_size.
Let scales := (length (net_outputs parsed) / 2)%nat.
Let inputDims := getDimensions input_tensor.

Hypothesis input_0 : net_inputs parsed !! 0%nat = Some input.
Hypothesis input_exists : net_tensors parsed !! input = Some input_tensor.
Hypothesis wf : well_formed parsed = true.
Hypothesis too_few : (length anchors < scales)%nat.

(** The anchors, filled up with empty lists to one per scale. *)
Let padded : list (list float) :=
  anchors ++ replicate (scales - length anchors) [].

(** The decode loop stops in round [length anchors]. *)
Lemma decode_loop_stops (s : BuildState) :
  network s = parsed ->
  aborts (add_decode_plugins score_thresh top_n anchors rotated inputDims
            (length (net_outputs parsed))) s VectorIndexOutOfBounds
    (fun s' =>
       net_outputs (network s') = net_outputs parsed /\
       length (net_layers (network s')) =
         (length (net_layers parsed) + length anchors)%nat /\
       builderConfig s' = builderConfig s /\
       builder_profiles s' = builder_profiles s /\
       events s' = events s).
Proof.
  intros Hnet.
  assert (Hwf : well_formed (network s) = true) by (rewrite Hnet; exact wf).
  assert (Hpadded : (length (net_outputs (network s)) / 2
                       <= length padded)%nat).
  { rewrite Hnet. fold scales. unfold padded.
    rewrite length_app, length_replicate. lia. }
  assert (Hfirst :
    returns (for_range 0 (length anchors)
               (decode_body score_thresh top_n anchors rotated inputDims
                  (length (net_outputs parsed))) ([], [], [])) s
      (fun acc s' =>
         exists extraT L,
           s' = {| network :=
                     {| net_tensors := net_tensors (network s) ++ extraT;
                        net_inputs := net_inputs (network s);
                        net_outputs := net_outputs (network s);
                        net_layers := net_layers (network s) ++ L |};
                   builderConfig := builderConfig s;
                   builder_profiles := builder_profiles s;
                   events := events s |} /\
           length L = length anchors)).
  { unfold returns.
    rewrite (for_range_ext _
               (decode_body score_thresh top_n padded rotated inputDims
                  (length (net_outputs parsed)))).
    2: { intros i acc s' Hi. symmetry. apply decode_body_agrees.
         unfold padded. apply lookup_app_l. lia. }
    pose (I := fun (k : nat) (acc : Collected) (s' : BuildState) =>
      exists extraT L,
        s' = {| network :=
                  {| net_tensors := net_tensors (network s) ++ extraT;
                     net_inputs := net_inputs (network s);
                     net_outputs := net_outputs (network s);
                     net_layers := net_layers (network s) ++ L |};
                builderConfig := builderConfig s;
                builder_profiles := builder_profiles s;
                events := events s |} /\
        length extraT = (3 * k)%nat /\
        length L = k /\
        (forall j l, L !! j = Some l ->
           decode_layer (network s) inputDims score_thresh top_n padded
             rotated j l) /\
        acc =
          (map (fun j => Some (length (net_tensors (network s)) + 3 * j)%nat)
               (seq 0 k),
           map (fun j =>
                  Some (length (net_tensors (network s)) + 3 * j + 1)%nat)
               (seq 0 k),
           map (fun j =>
                  Some (length (net_tensors (network s)) + 3 * j + 2)%nat)
               (seq 0 k))).
    eapply returns_mono.
    - rewrite <- Hnet.
      apply (returns_for_range I _ (length anchors) 0%nat).
      + intros i acc s' Hi.
        apply (decode_round score_thresh top_n padded rotated inputDims s
                 Hwf Hpadded i acc s').
        rewrite Hnet. fold scales. lia.
      + exists [], []. split.
        { destruct s as [[tensors inputs outputs layers] c p e].
          cbn. rewrite !app_nil_r. reflexivity. }
        split; [reflexivity |]. split; [reflexivity |].
        split; [| reflexivity]. intros j l Hj. discriminate.
    - intros acc s' (extraT & L & -> & _ & HL & _).
      exists extraT, L. split; [reflexivity | exact HL]. }
  destruct (wf_class_map padded s Hwf Hpadded (length anchors))
    as (c & ten & Hc & Hten & Hheight);
    [rewrite Hnet; fold scales; lia |].
  destruct (Nat.le_exists_sub (S (length anchors)) scales ltac:(lia))
    as (more & Hmore & _).
  unfold add_decode_plugins. fold scales.
  replace scales with (length anchors + S more)%nat by lia.
  unfold aborts. rewrite for_range_split.
  apply aborts_bind_r. eapply returns_mono; [exact Hfirst |].
  intros [[scores boxes] classes] s' (extraT & L & -> & HL). cbv beta.
  cbn [Nat.add for_range]. apply aborts_bind_l.
  unfold decode_body, network_getOutput, tensor.
  apply aborts_bind_r, returns_gets. cbn [network net_outputs].
  rewrite Hc.
  apply aborts_bind_r, returns_gets.
  apply aborts_bind_r, returns_bind.
  eapply returns_deref; [reflexivity |].
  apply returns_bind, returns_gets. cbn [network net_tensors].
  rewrite lookup_app_l by (apply lookup_lt_Some in Hten; exact Hten).
  rewrite Hten.
  eapply returns_deref; [reflexivity |].
  apply aborts_bind_r, returns_int_div; [exact Hheight |].
  apply aborts_bind_l.
  eexists. split.
  { unfold index. rewrite lookup_ge_None_2 by lia. reflexivity. }
  cbn. rewrite Hnet, length_app, HL. auto.
Qed.

(** X10.  With fewer anchor lists than scales, on a well-formed network,
    the constructor reads [anchors[anchors.size()]], past the end of the
    vector, in that round of the decode loop.  By then it has added one
    decode layer for each anchor list there is; no output has been
    unmarked, and neither "Applying optimizations..." nor the plan compiler
    has been reached. *)
Theorem build_reads_past_short_anchor_set :
  exists s,
    run (Engine_build onnx_model onnx_size [bmin; bopt; bmax] precision
           score_thresh top_n anchors rotated nms_thresh detections_per_im
           calibration_images model_name calibration_table workspace_size)
        fresh_build = (Abort VectorIndexOutOfBounds, s) /\
    net_outputs (network s) = net_outputs parsed /\
    length (net_layers (network s)) =
      (length (net_layers parsed) + length anchors)%nat /\
    events s =
      [cout (String.append "Building "
               (String.append precision " core model..."));
       cout "Building accelerated plugins..."].
Proof.
  destruct (before_build_plugins onnx_model onnx_size bmin bopt bmax
              precision score_thresh top_n anchors rotated nms_thresh
              detections_per_im calibration_images model_name
              calibration_table workspace_size input input_tensor
              input_0 input_exists)
    as (s1 & Hsnd & Hfst & Hnet & Hev & _ & _).
  fold inputDims in Hsnd, Hfst.
  assert (Haborts :
    aborts (build_plugins score_thresh top_n anchors rotated nms_thresh
              detections_per_im inputDims;; build_engine) s1
      VectorIndexOutOfBounds
      (fun s =>
         net_outputs (network s) = net_outputs parsed /\
         length (net_layers (network s)) =
           (length (net_layers parsed) + length anchors)%nat /\
         events s = events s1 ++ [cout "Building accelerated plugins..."])).
  { apply aborts_bind_l. unfold build_plugins.
    apply aborts_bind_r. unfold emit. apply returns_modify.
    apply aborts_bind_r, returns_gets. cbn [network]. rewrite Hnet.
    apply aborts_bind_l.
    destruct (decode_loop_stops
                {| network := parsed; builderConfig := builderConfig s1;
                   builder_profiles := builder_profiles s1;
                   events :=
                     events s1 ++ [cout "Building accelerated plugins..."] |}
                eq_refl)
      as (s & Hrun & Hout & Hlay & _ & _ & Hevs).
    exists s. split; [exact Hrun |]. auto. }
  destruct Haborts as (s & Hrun & Hout & Hlay & Hevs).
  rewrite Hrun in Hsnd, Hfst. cbn [fst snd] in Hsnd, Hfst.
  exists s. split.
  { destruct (run _ fresh_build) as [o s']. cbn [fst snd] in Hsnd, Hfst.
    congruence. }
  split; [exact Hout |]. split; [exact Hlay |].
  rewrite Hevs, Hev. reflexivity.
Qed.

End MissingAnchors.

(** ** The parsed network is only added to *)

Lemma extends_refl (n : INetworkDefinition) : extends n n.
Proof.
  split; [reflexivity |]. split; [reflexivity |].
  intros t ten Ht. exists ten. split; [exact Ht | reflexivity].
Qed.

Lemma extends_trans (n1 n2 n3 : INetworkDefinition) :
  extends n1 n2 -> extends n2 n3 -> extends n1 n3.
Proof.
  intros (Hi1 & Hl1 & Ht1) (Hi2 & Hl2 & Ht2).
  split; [congruence |]. split; [etransitivity; eassumption |].
  intros t ten Ht.
  destruct (Ht1 t ten Ht) as (ten2 & Hten2 & Hd2).
  destruct (Ht2 t ten2 Hten2) as (ten3 & Hten3 & Hd3).
  exists ten3. split; [exact Hten3 | congruence].
Qed.

#[global] Instance network_extended_preorder : PreOrder network_extended.
Proof.
  split.
  - intros s. apply extends_refl.
  - intros s1 s2 s3. apply extends_trans.
Qed.

Lemma extends_append (n : INetworkDefinition) (outputs : list ITensor_ptr)
    (new : list ITensor) (layers : list ILayer) :
  extends n {| net_tensors := net_tensors n ++ new;
               net_inputs := net_inputs n;
               net_outputs := outputs;
               net_layers := net_layers n ++ layers |}.
Proof.
  split; [reflexivity |]. split; [apply prefix_app_r; reflexivity |].
  intros t ten Ht. exists ten. split; [| reflexivity].
  cbn. rewrite lookup_app_l; [exact Ht |].
  apply lookup_lt_Some in Ht. exact Ht.
Qed.

Lemma extends_setName (n : INetworkDefinition) (t : ITensor_ptr)
    (name : string) :
  extends n (net_setName t name n).
Proof.
  split; [reflexivity |]. split; [reflexivity |].
  intros t' ten Ht. cbn. rewrite list_lookup_alter.
  destruct (decide (t = t')) as [-> | _].
  - rewrite Ht. eexists. split; reflexivity.
  - exists ten. split; [exact Ht | reflexivity].
Qed.

Section OnlyAddedTo.
Context `{Collaborators}.

Lemma keeps_extended_unchanged {A : Type} (m : M BuildState A) :
  keeps same_network m -> keeps network_extended m.
Proof.
  apply keeps_weaken. intros s s' Hnet.
  unfold network_extended. rewrite <- Hnet. apply extends_refl.
Qed.

Lemma keeps_extended_emit e : keeps network_extended (emit e).
Proof. intros s. apply extends_refl. Qed.

Lemma keeps_extended_addPluginV2 inputs plugin :
  keeps network_extended (network_addPluginV2 inputs plugin).
Proof.
  intros s. unfold run, network_addPluginV2, net_addPluginV2.
  destruct (tensor_dims (network s) inputs); cbn.
  - apply (extends_append (network s)).
  - apply extends_refl.
Qed.

Lemma keeps_extended_addConcatenation inputs :
  keeps network_extended (network_addConcatenation inputs).
Proof.
  intros s. unfold run, network_addConcatenation, net_addConcatenation.
  destruct inputs as [| p inputs]; [apply extends_refl |].
  destruct (tensor_dims (network s) (p :: inputs)); cbn.
  - apply (extends_append (network s)).
  - apply extends_refl.
Qed.

Lemma keeps_extended_outputs (f : list ITensor_ptr -> list ITensor_ptr) :
  keeps network_extended
    (modify (on_network (fun n =>
       {| net_tensors := net_tensors n; net_inputs := net_inputs n;
          net_outputs := f (net_outputs n); net_layers := net_layers n |}))).
Proof.
  intros s. split; [reflexivity |]. split; [reflexivity |].
  intros t ten Ht. exists ten. split; [exact Ht | reflexivity].
Qed.

Lemma keeps_extended_unmarkOutput output :
  keeps network_extended (network_unmarkOutput output).
Proof.
  unfold network_unmarkOutput.
  pose proof keeps_extended_emit.
  pose proof (fun t =>
                keeps_extended_outputs (filter (fun o => o <> t))) as Hf.
  auto with keeps.
Qed.

Lemma keeps_extended_markOutput output :
  keeps network_extended (network_markOutput output).
Proof.
  unfold network_markOutput.
  pose proof keeps_extended_emit.
  pose proof (fun t =>
                keeps_extended_outputs
                  (fun outs => if bool_decide (t ∈ outs) then outs
                               else outs ++ [t])) as Hf.
  auto with keeps.
Qed.

Lemma keeps_extended_setName output name :
  keeps network_extended (tensor_setName output name).
Proof.
  unfold tensor_setName. keeps_seq; [apply keeps_deref; apply _ |].
  intros t s. apply extends_setName.
Qed.

Lemma keeps_extended_build_plugins score_thresh top_n anchors rotated
    nms_thresh detections_per_im inputDims :
  keeps network_extended
    (build_plugins score_thresh top_n anchors rotated nms_thresh
       detections_per_im inputDims;; build_engine).
Proof.
  pose proof keeps_extended_emit.
  pose proof keeps_extended_addPluginV2.
  pose proof keeps_extended_addConcatenation.
  pose proof keeps_extended_unmarkOutput.
  pose proof keeps_extended_markOutput.
  pose proof keeps_extended_setName.
  keeps_seq.
  2: { intros _. unfold build_engine. auto with keeps. }
  unfold build_plugins. keeps_seq; [auto with keeps |]. intros _.
  keeps_seq; [apply keeps_gets; apply _ |]. intros nbOutputs.
  keeps_seq.
  { unfold add_decode_plugins. apply keeps_for_range; [apply _ |].
    intros i [[scores boxes] classes]. unfold decode_body.
    unfold network_getOutput. auto 12 with keeps. }
  intros [[scores boxes] classes].
  keeps_seq.
  { unfold cleanup_outputs, network_getOutput. auto with keeps. }
  intros _. keeps_seq.
  { unfold concat_tensors, concat_body. auto 10 with keeps. }
  intros concat. unfold add_nms_plugin, mark_body. auto 10 with keeps.
Qed.

(** X11.  Whatever the arguments and however the build ends, the network
    is the parsed one with things added: its inputs are the parsed inputs,
    its layers are the parsed layers followed by the new ones, and every
    parsed tensor is still at its place with its shape.  The constructor
    never removes or replaces a layer or a tensor. *)
Theorem build_only_adds_to_parsed_network
    (onnx_model : list Byte.byte) (onnx_size : nat)
    (dynamic_batch_opts : list Z) (precision : string)
    (score_thresh : float) (top_n : Z) (anchors : list (list float))
    (rotated : bool) (nms_thresh : float) (detections_per_im : Z)
    (calibration_images : list string)
    (model_name calibration_table : string) (workspace_size : Z) :
  extends (parser_parse onnx_model onnx_size)
    (network
       (snd (run (Engine_build onnx_model onnx_size dynamic_batch_opts
                    precision score_thresh top_n anchors rotated nms_thresh
                    detections_per_im calibration_images model_name
                    calibration_table workspace_size) fresh_build))).
Proof.
  destruct (keeps_network_before_plugins dynamic_batch_opts precision
              calibration_images model_name calibration_table)
    as [Hprofile Hcalibrate].
  assert (Hrest : forall s,
    network_extended s
      (snd (run ('(inputDims, profile) ← create_profile dynamic_batch_opts;
                 calibrate dynamic_batch_opts precision calibration_images
                   model_name calibration_table inputDims profile;;
                 build_plugins score_thresh top_n anchors rotated nms_thresh
                   detections_per_im inputDims;;
                 build_engine) s))).
  { change (keeps network_extended
              ('(inputDims, profile) ← create_profile dynamic_batch_opts;
               calibrate dynamic_batch_opts precision calibration_images
                 model_name calibration_table inputDims profile;;
               build_plugins score_thresh top_n anchors rotated nms_thresh
                 detections_per_im inputDims;;
               build_engine)).
    keeps_seq; [apply keeps_extended_unchanged, Hprofile |].
    intros [inputDims profile].
    keeps_seq; [apply keeps_extended_unchanged, Hcalibrate |].
    intros _. apply keeps_extended_build_plugins. }
  assert (Hparsed : exists s,
    network s = parser_parse onnx_model onnx_size /\
    run (Engine_build onnx_model onnx_size dynamic_batch_opts precision
           score_thresh top_n anchors rotated nms_thresh detections_per_im
           calibration_images model_name calibration_table workspace_size)
        fresh_build =
    run ('(inputDims, profile) ← create_profile dynamic_batch_opts;
         calibrate dynamic_batch_opts precision calibration_images
           model_name calibration_table inputDims profile;;
         build_plugins score_thresh top_n anchors rotated nms_thresh
           detections_per_im inputDims;;
         build_engine) s).
  { unfold Engine_build, create_builder, parse_onnx, when.
    destruct (fp16 precision || int8 precision);
      eexists; (split; [| reflexivity]); reflexivity. }
  destruct Hparsed as (s & <- & ->). apply Hrest.
Qed.

End OnlyAddedTo.

(** ** Saving the plan *)

Section SaveAfterBuild.
Context `{Collaborators}.
Variables (onnx_model : list Byte.byte) (onnx_size : nat).
Variables (bmin bopt bmax : Z) (precision : string).
Variables (score_thresh : float) (top_n : Z) (anchors : list (list float)).
Variables (rotated : bool) (nms_thresh : float) (detections_per_im : Z).
Variables (calibration_images : list string).
Variables (model_name calibration_table : string) (workspace_size : Z).
Variables (input : ITensor_ptr) (input_tensor : ITensor).
Variable path : string.

Let parsed := parser_parse onnx_model onnx_size.

Hypothesis input_0 : net_inputs parsed !! 0%nat = Some input.
Hypothesis input_exists : net_tensors parsed !! input = Some input_tensor.
Hypothesis wf : well_formed parsed = true.
Hypothesis some_scale : (1 <= length (net_outputs parsed) / 2)%nat.
Hypothesis enough_anchors :
  (length (net_outputs parsed) / 2 <= length anchors)%nat.

Let writing : FileEvent :=
  file_cout (String.append "Writing to " (String.append path "...")).

(** X12.  The constructor does not look at what the plan compiler returns:
    on a well-formed network it ends normally also with a null plan.  [save]
    then prints its line and opens the file, which empties it, before it
    dereferences the null plan, and nothing is written.  With a plan, [save]
    writes to the file exactly the bytes the compiler returned for the
    rewritten network. *)
Theorem save_writes_what_compiler_returned :
  exists s,
    let _plan :=
      builder_buildSerializedNetwork (network s) (builderConfig s)
        (builder_profiles s) in
    run (Engine_build onnx_model onnx_size [bmin; bopt; bmax] precision
           score_thresh top_n anchors rotated nms_thresh detections_per_im
           calibration_images model_name calibration_table workspace_size)
        fresh_build = (Normal _plan, s) /\
    run (save _plan path) [] =
      match _plan with
      | Some bytes =>
          (Normal tt,
           [writing; ofstream_open path; ofstream_write path bytes])
      | None => (Abort NullDereference, [writing; ofstream_open path])
      end.
Proof.
  destruct (Engine_build_run onnx_model onnx_size bmin bopt bmax precision
              score_thresh top_n anchors rotated nms_thresh detections_per_im
              calibration_images model_name calibration_table workspace_size
              input input_tensor input_0 input_exists wf some_scale
              enough_anchors)
    as (s & Hrun & _).
  exists s. cbv zeta. split; [exact Hrun |].
  destruct (builder_buildSerializedNetwork _ _ _); reflexivity.
Qed.

End SaveAfterBuild.

(** ** Unguarded division and unpaired outputs *)

Section DecodeEdges.
Context `{Collaborators}.
Variables (onnx_model : list Byte.byte) (onnx_size : nat).
Variables (bmin bopt bmax : Z) (precision : string).
Variables (score_thresh : float) (top_n : Z) (anchors : list (list float)).
Variables (rotated : bool) (nms_thresh : float) (detections_per_im : Z).
Variables (calibration_images : list string).
Variables (model_name calibration_table : string) (workspace_size : Z).
Variables (input : ITensor_ptr) (input_tensor : ITensor).

Let parsed := parser_parse onnx_model onnx_size.
Let scales := (length (net_outputs parsed) / 2)%nat.

Hypothesis input_0 : net_inputs parsed !! 0%nat = Some input.
Hypothesis input_exists : net_tensors parsed !! input = Some input_tensor.

Let result :=
  run (Engine_build onnx_model onnx_size [bmin; bopt; bmax] precision
         score_thresh top_n anchors rotated nms_thresh detections_per_im
         calibration_images model_name calibration_table workspace_size)
      fresh_build.

(** X13.  The scale factor is computed without a guard.  When the network
    has at least two outputs and dimension 2 of the first class map is 0,
    the constructor divides by zero in the first round of the decode loop:
    the network is still as parsed, no plugin has been added, and nothing
    has been printed after "Building accelerated plugins...". *)
Theorem build_divides_by_zero_height (classOutput : ITensor_ptr)
    (class_map : ITensor) :
  (2 <= length (net_outputs parsed))%nat ->
  net_outputs parsed !! 0%nat = Some classOutput ->
  net_tensors parsed !! classOutput = Some class_map ->
  d (getDimensions class_map) 2 = 0 ->
  exists s,
    result = (Abort DivideByZero, s) /\
    network s = parsed /\
    events s =
      [cout (String.append "Building "
               (String.append precision " core model..."));
       cout "Building accelerated plugins..."].
Proof.
  intros Htwo Hclass Hmap Hzero.
  destruct (before_build_plugins onnx_model onnx_size bmin bopt bmax
              precision score_thresh top_n anchors rotated nms_thresh
              detections_per_im calibration_images model_name
              calibration_table workspace_size input input_tensor
              input_0 input_exists)
    as (s1 & Hsnd & Hfst & Hnet & Hev & _ & _).
  fold parsed in Hnet.
  assert (Haborts :
    aborts (build_plugins score_thresh top_n anchors rotated nms_thresh
              detections_per_im (getDimensions input_tensor);; build_engine)
      s1 DivideByZero
      (fun s =>
         network s = parsed /\
         events s = events s1 ++ [cout "Building accelerated plugins..."])).
  { apply aborts_bind_l. unfold build_plugins.
    apply aborts_bind_r. unfold emit. apply returns_modify.
    apply aborts_bind_r, returns_gets. cbn [network]. rewrite Hnet.
    apply aborts_bind_l. unfold add_decode_plugins.
    destruct (length (net_outputs parsed) / 2)%nat as [| more] eqn:Hscales.
    { pose proof (Nat.Div0.div_le_mono 2 (length (net_outputs parsed)) 2
                    Htwo) as Hle.
      rewrite Hscales in Hle. cbn in Hle. lia. }
    cbn [for_range]. apply aborts_bind_l.
    unfold decode_body, network_getOutput, tensor.
    apply aborts_bind_r, returns_gets. cbn [network]. rewrite Hclass.
    apply aborts_bind_r, returns_gets.
    apply aborts_bind_r, returns_bind.
    eapply returns_deref; [reflexivity |].
    apply returns_bind, returns_gets. cbn [network]. rewrite Hmap.
    eapply returns_deref; [reflexivity |].
    apply aborts_bind_l. eexists. split.
    { unfold int_div. rewrite Hzero. reflexivity. }
    split; reflexivity. }
  destruct Haborts as (s & Hrun & Hnets & Hevs).
  rewrite Hrun in Hsnd, Hfst. cbn [fst snd] in Hsnd, Hfst.
  exists s. split.
  { unfold result. destruct (run _ fresh_build) as [o s'].
    cbn [fst snd] in Hsnd, Hfst. congruence. }
  split; [exact Hnets |]. rewrite Hevs, Hev. reflexivity.
Qed.

Hypothesis wf : well_formed parsed = true.
Hypothesis some_scale : (1 <= scales)%nat.
Hypothesis enough_anchors : (scales <= length anchors)%nat.

(** X14.  An odd number of outputs is not refused.  When the network has
    an output at position [2 S], where [S] is [nbOutputs / 2], so that it
    has [2 S + 1] outputs, the build ends normally: all outputs are
    unmarked, the decode layers pair output [i] with output [S + i] for
    [i < S], and the last output is an input of none of them. *)
Theorem unpaired_output_is_dropped (last : ITensor_ptr) :
  net_outputs parsed !! (2 * scales)%nat = Some last ->
  exists plan s,
    result = (Normal plan, s) /\
    List.filter is_marking (events s) =
      map unmarkOutput (net_outputs parsed) ++
      map markOutput (net_outputs (network s)) /\
    (last ∉ net_outputs (network s)) /\
    forall i, (i < scales)%nat ->
      exists layer inputs plugin outs,
        net_layers (network s) !! (length (net_layers parsed) + i)%nat =
          Some layer /\
        layer = PluginV2Layer inputs plugin outs /\
        net_outputs parsed !! i = inputs !! 0%nat /\
        net_outputs parsed !! (scales + i)%nat = inputs !! 1%nat /\
        length inputs = 2%nat /\
        last ∉ inputs.
Proof.
  intros Hlast.
  destruct (Engine_build_run onnx_model onnx_size bmin bopt bmax precision
              score_thresh top_n anchors rotated nms_thresh detections_per_im
              calibration_images model_name calibration_table workspace_size
              input input_tensor input_0 input_exists wf some_scale
              enough_anchors)
    as (s & Hrun & Hev & _ & Hleft & Hlayers).
  assert (Hnodup : NoDup (net_outputs parsed)).
  { unfold well_formed in wf. apply andb_prop in wf as [Hw _].
    apply andb_prop in Hw as [Hw _]. apply bool_decide_eq_true in Hw.
    exact Hw. }
  eexists _, s. split; [exact Hrun |]. split.
  { rewrite Hev. cbn [app List.filter is_marking].
    rewrite !List.filter_app, filter_marking_unmark, filter_marking_mark.
    cbn. rewrite app_nil_r. reflexivity. }
  split; [apply Hleft, (list_elem_of_lookup_2 _ _ _ Hlast) |].
  intros i Hi.
  destruct (Hlayers i Hi)
    as (layer & Hlayer & c & b & ten & a & outs & Hc & Hb & _ & _ & ->).
  fold parsed scales in Hc, Hb.
  eexists _, [c; b], _, outs.
  split; [exact Hlayer |]. split; [reflexivity |].
  split; [exact Hc |]. split; [exact Hb |]. split; [reflexivity |].
  rewrite !elem_of_cons, elem_of_nil. intros [-> | [-> | []]].
  - pose proof (NoDup_lookup _ _ _ _ Hnodup Hc Hlast). lia.
  - pose proof (NoDup_lookup _ _ _ _ Hnodup Hb Hlast). lia.
Qed.

End DecodeEdges.

(** ** The sample model, again *)

Lemma infer_binds_then_enqueues_then_waits_witness :
  exists s',
    run (infer [10; 20; 30; 40; 50] 1) Sample.ready = (Normal tt, s') /\
    calls s' =
      calls Sample.ready ++
      zip_with (fun io address => setTensorAddress (Some (fst io)) address)
        (io_tensors Sample.engine) (take 4 [10; 20; 30; 40; 50]) ++
      [enqueueV3 1%nat; cudaStreamSynchronize 1%nat] /\
    state_of (this s') = Ready /\
    _engine (this s') = Some Sample.engine /\
    _stream (this s') = 1%nat /\
    device_streams s' = 1%nat.
Proof.
  apply (infer_binds_then_enqueues_then_waits Sample.ready Sample.engine
           {| ctx_profile := Some 0; ctx_addresses := [] |}
           [10; 20; 30; 40; 50] 1);
    first [reflexivity | vm_compute; lia].
Defined.

Lemma infer_puts_buffers_in_force_witness :
  exists context',
    _context (this (snd (run (infer [10; 20; 30; 40] 1) Sample.ready))) =
      Some context' /\
    address_of "boxes" (ctx_addresses context') = Some 30.
Proof.
  apply (infer_puts_buffers_in_force Sample.ready Sample.engine
           {| ctx_profile := Some 0; ctx_addresses := [] |}
           [10; 20; 30; 40] 1 2%nat "boxes" [1; 400] 30);
    first [reflexivity | vm_compute; lia
          | refine (@bool_decide_unpack _ _ _); vm_compute; exact I].
Defined.

Lemma prepare_then_infer_runs_on_created_stream_witness :
  exists s' created,
    run (_prepare;; infer [10; 20; 30; 40] 1) Sample.loaded =
      (Normal tt, s') /\
    created <> _stream (this Sample.loaded) /\
    _stream (this s') = created /\
    calls s' =
      calls Sample.loaded ++
      [createExecutionContext;
       setOptimizationProfileAsync 0 (_stream (this Sample.loaded));
       cudaStreamCreate created] ++
      zip_with (fun io address => setTensorAddress (Some (fst io)) address)
        (io_tensors Sample.engine)
        (take (getNbIOTensors Sample.engine) [10; 20; 30; 40]) ++
      [enqueueV3 created; cudaStreamSynchronize created].
Proof.
  apply (prepare_then_infer_runs_on_created_stream Sample.loaded
           Sample.engine [10; 20; 30; 40] 1);
    first [reflexivity | vm_compute; lia].
Defined.

Lemma second_infer_rebinds_every_tensor_witness :
  exists s' context',
    run (infer [10; 20; 30; 40] 1;; infer [11; 21; 31; 41] 2) Sample.ready =
      (Normal tt, s') /\
    _context (this s') = Some context' /\
    calls s' =
      calls Sample.ready ++
      (zip_with (fun io address => setTensorAddress (Some (fst io)) address)
         (io_tensors Sample.engine) [10; 20; 30; 40] ++
       [enqueueV3 (_stream (this Sample.ready));
        cudaStreamSynchronize (_stream (this Sample.ready))]) ++
      (zip_with (fun io address => setTensorAddress (Some (fst io)) address)
         (io_tensors Sample.engine) [11; 21; 31; 41] ++
       [enqueueV3 (_stream (this Sample.ready));
        cudaStreamSynchronize (_stream (this Sample.ready))]) /\
    forall i name dims address,
      io_tensors Sample.engine !! i = Some (name, dims) ->
      [11; 21; 31; 41] !! i = Some address ->
      address_of name (ctx_addresses context') = Some address.
Proof.
  apply (second_infer_rebinds_every_tensor Sample.ready Sample.engine
           {| ctx_profile := Some 0; ctx_addresses := [] |}
           [10; 20; 30; 40] [11; 21; 31; 41] 1 2);
    first [reflexivity | vm_compute; lia
          | refine (@bool_decide_unpack _ _ _); vm_compute; exact I].
Defined.

Lemma destructor_destroys_created_stream_witness :
  exists s' created,
    run _prepare Sample.loaded = (Normal tt, s') /\
    last (calls s') = Some (cudaStreamCreate created) /\
    Engine_destructor (this s') = [cudaStreamDestroy created] /\
    cudaStreamDestroy (_stream (this Sample.loaded))
      ∉ Engine_destructor (this s').
Proof.
  apply (destructor_destroys_created_stream Sample.loaded Sample.engine);
    first [reflexivity | vm_compute; lia].
Defined.

Lemma build_dereferences_missing_input_witness :
  exists s,
    run (@Engine_build Sample.nothing_parsed [] 0 [1; 4; 8] "FP16"
           Sample.half 1000 Sample.anchors false Sample.half 100
           ["a.jpg"; "b.jpg"] "model" "table" 1024) fresh_build =
      (Abort NullDereference, s) /\
    events s = [cout "Building FP16 core model..."] /\
    builder_profiles s = [] /\
    cfg_profiles (builderConfig s) = [] /\
    network s = empty_network.
Proof.
  apply (@build_dereferences_missing_input Sample.nothing_parsed [] 0%nat
           [1; 4; 8] "FP16" Sample.half 1000 Sample.anchors false Sample.half
           100 ["a.jpg"; "b.jpg"] "model" "table" 1024).
  reflexivity.
Defined.

Lemma build_reads_past_short_batch_list_witness :
  exists s,
    Sample.build [1; 4] "INT8" Sample.anchors false =
      (Abort VectorIndexOutOfBounds, s) /\
    events s = [cout "Building INT8 core model..."] /\
    builder_profiles s = [[]] /\
    cfg_profiles (builderConfig s) = [] /\
    cfg_int8_calibrator (builderConfig s) = None /\
    network s = Sample.parsed.
Proof.
  apply (@build_reads_past_short_batch_list Sample.collaborators [] 0%nat
           [1; 4] "INT8" Sample.half 1000 Sample.anchors false Sample.half
           100 ["a.jpg"; "b.jpg"] "model" "table" 1024
           0%nat Sample.input_tensor);
    first [reflexivity | vm_compute; lia].
Defined.

Lemma rejected_profile_does_not_stop_build_witness :
  exists s,
    Sample.build [4; 1; 8] "INT8" Sample.anchors false =
      (Normal (@builder_buildSerializedNetwork Sample.collaborators
                 (network s) (builderConfig s) (builder_profiles s)), s) /\
    builder_profiles s =
      [[("input_1", kMAX, [8; 3; 512; 512]);
        ("input_1", kOPT, [1; 3; 512; 512]);
        ("input_1", kMIN, [4; 3; 512; 512])]] /\
    cfg_profiles (builderConfig s) = [] /\
    (buildSerializedNetwork ∈ events s) /\
    output_names (network s) =
      [Some "scores"; Some "boxes"; Some "classes"] /\
    ("INT8" = "INT8" ->
     cfg_calibration_profile (builderConfig s) = Some 0%nat).
Proof.
  apply (@rejected_profile_does_not_stop_build Sample.collaborators [] 0%nat
           4 1 8 "INT8" Sample.half 1000 Sample.anchors false Sample.half
           100 ["a.jpg"; "b.jpg"] "model" "table" 1024
           0%nat Sample.input_tensor);
    first [reflexivity | vm_compute; lia].
Defined.

Lemma surplus_anchors_change_nothing_witness :
  Sample.build [1; 4; 8] "FP32" (Sample.anchors ++ [[Sample.half]]) true =
  Sample.build [1; 4; 8] "FP32" Sample.anchors true.
Proof.
  apply (@surplus_anchors_change_nothing Sample.collaborators [] 0%nat
           [1; 4; 8] "FP32" Sample.half 1000 Sample.anchors [[Sample.half]]
           true Sample.half 100 ["a.jpg"; "b.jpg"] "model" "table" 1024).
  vm_compute. lia.
Defined.

Lemma build_reads_past_short_anchor_set_witness :
  exists s,
    Sample.build [1; 4; 8] "FP32" [[Sample.half]] false =
      (Abort VectorIndexOutOfBounds, s) /\
    net_outputs (network s) = net_outputs Sample.parsed /\
    length (net_layers (network s)) =
      (length (net_layers Sample.parsed) + 1)%nat /\
    events s =
      [cout "Building FP32 core model...";
       cout "Building accelerated plugins..."].
Proof.
  apply (@build_reads_past_short_anchor_set Sample.collaborators [] 0%nat
           1 4 8 "FP32" Sample.half 1000 [[Sample.half]] false Sample.half
           100 ["a.jpg"; "b.jpg"] "model" "table" 1024
           0%nat Sample.input_tensor);
    first [reflexivity | vm_compute; lia].
Defined.

Lemma save_writes_what_compiler_returned_witness :
  exists s,
    let _plan :=
      @builder_buildSerializedNetwork Sample.collaborators (network s)
        (builderConfig s) (builder_profiles s) in
    Sample.build [4; 1; 8] "FP32" Sample.anchors false = (Normal _plan, s) /\
    run (save _plan "model.plan") [] =
      match _plan with
      | Some bytes =>
          (Normal tt,
           [file_cout "Writing to model.plan...";
            ofstream_open "model.plan";
            ofstream_write "model.plan" bytes])
      | None =>
          (Abort NullDereference,
           [file_cout "Writing to model.plan...";
            ofstream_open "model.plan"])
      end.
Proof.
  apply (@save_writes_what_compiler_returned Sample.collaborators [] 0%nat
           4 1 8 "FP32" Sample.half 1000 Sample.anchors false Sample.half
           100 ["a.jpg"; "b.jpg"] "model" "table" 1024
           0%nat Sample.input_tensor "model.plan");
    first [reflexivity | vm_compute; lia].
Defined.

Lemma build_divides_by_zero_height_witness :
  exists s,
    run (@Engine_build (Sample.parsing Sample.flat) [] 0 [1; 4; 8] "FP32"
           Sample.half 1000 Sample.anchors false Sample.half 100
           ["a.jpg"; "b.jpg"] "model" "table" 1024) fresh_build =
      (Abort DivideByZero, s) /\
    network s = Sample.flat /\
    events s =
      [cout "Building FP32 core model...";
       cout "Building accelerated plugins..."].
Proof.
  apply (@build_divides_by_zero_height (Sample.parsing Sample.flat) [] 0%nat
           1 4 8 "FP32" Sample.half 1000 Sample.anchors false Sample.half
           100 ["a.jpg"; "b.jpg"] "model" "table" 1024
           0%nat Sample.input_tensor eq_refl eq_refl 1%nat
           {| getName := "cls_0"; getDimensions := [1; 720] |});
    first [reflexivity | vm_compute; lia].
Defined.

Lemma unpaired_output_is_dropped_witness :
  exists plan s,
    run (@Engine_build (Sample.parsing Sample.odd) [] 0 [1; 4; 8] "FP32"
           Sample.half 1000 Sample.anchors false Sample.half 100
           ["a.jpg"; "b.jpg"] "model" "table" 1024) fresh_build =
      (Normal plan, s) /\
    List.filter is_marking (events s) =
      map unmarkOutput (net_outputs Sample.odd) ++
      map markOutput (net_outputs (network s)) /\
    (5%nat ∉ net_outputs (network s)) /\
    forall i, (i < 2)%nat ->
      exists layer inputs plugin outs,
        net_layers (network s) !! (0 + i)%nat = Some layer /\
        layer = PluginV2Layer inputs plugin outs /\
        net_outputs Sample.odd !! i = inputs !! 0%nat /\
        net_outputs Sample.odd !! (2 + i)%nat = inputs !! 1%nat /\
        length inputs = 2%nat /\
        5%nat ∉ inputs.
Proof.
  apply (@unpaired_output_is_dropped (Sample.parsing Sample.odd) [] 0%nat
           1 4 8 "FP32" Sample.half 1000 Sample.anchors false Sample.half
           100 ["a.jpg"; "b.jpg"] "model" "table" 1024
           0%nat Sample.input_tensor);
    first [reflexivity | vm_compute; lia].
Defined.
